(** * CORS support of cornice: preflight view, validator and filter

    A shallow embedding of [cornice/cors.py] (and of the older options view
    of [cornice/pyramidhook.py]) together with the properties the
    specification states about them.

    Layout:
    - [Py]      the Python values and built-ins the code relies on
                (truthiness, [str.split], [str.join], [str] of an integer,
                interned string constants and the [is] operator);
    - [Fnmatch] [fnmatch.fnmatchcase];
    - [Cornice] the request, response and service objects as the code uses
                them, and the functions of [cors.py] and [pyramidhook.py];
    - the theorems. *)

From Stdlib Require Import Ascii String List ZArith Bool Lia.
From stdpp Require Import base option list strings gmap fin_maps pretty.

Local Open Scope string_scope.
Local Open Scope list_scope.

(* ===================================================================== *)
(** ** Python values and built-ins *)
(* ===================================================================== *)

Module Py.

(** [bool(s)] for a string: the empty string is falsy. *)
Definition truthy_str (s : string) : bool :=
  match s with
  | EmptyString => false
  | String _ _ => true
  end.

(** [bool(v)] for the result of [headers.get(name)], which is [None] when
    the header is not there and the header's value otherwise. *)
Definition truthy (v : option string) : bool :=
  match v with
  | None => false
  | Some s => truthy_str s
  end.

(** The characters [str.split()] treats as separators
    ([string.whitespace]: tab, line feed, vertical tab, form feed,
    carriage return and space). *)
Definition is_space (c : ascii) : bool :=
  let n := nat_of_ascii c in
  (Nat.eqb n 32) || ((Nat.leb 9 n) && (Nat.leb n 13)).

(** [s.split()]: the maximal runs of characters that are not whitespace,
    in order.  [cur] holds the run being read, last character first. *)
Fixpoint split_go (cur : list ascii) (s : string) : list string :=
  match s with
  | EmptyString =>
      match cur with
      | [] => []
      | _ :: _ => [string_of_list_ascii (rev cur)]
      end
  | String c s' =>
      if is_space c then
        match cur with
        | [] => split_go [] s'
        | _ :: _ => string_of_list_ascii (rev cur) :: split_go [] s'
        end
      else split_go (c :: cur) s'
  end.

Definition split (s : string) : list string := split_go [] s.

(** [sep.join(xs)]. *)
Fixpoint join (sep : string) (xs : list string) : string :=
  match xs with
  | [] => EmptyString
  | [x] => x
  | x :: xs' => x ++ sep ++ join sep xs'
  end.

(** [str(n)] for an integer. *)
Definition str_of_int (n : Z) : string := pretty n.

(** A string object.  CPython keeps one object for every string constant
    of compiled code that is spelled like an identifier (such constants
    are interned); a string made at run time, for instance by a server
    that reads the request line from a socket, is an object of its own,
    whatever its characters.  [interned s] tells whether [s] is the
    interned object for its characters. *)
Record str_obj : Type := StrObj { chars : string; interned : bool }.

(** The object a string constant of the source denotes. *)
Definition const (s : string) : str_obj := StrObj s true.

(** [a == b]: same characters. *)
Definition eq (a b : str_obj) : bool := bool_decide (chars a = chars b).

(** [a is b], where [b] is a string constant: [a] is that very object. *)
Definition is_ (a b : str_obj) : bool :=
  interned a && interned b && bool_decide (chars a = chars b).

Definition is_not (a b : str_obj) : bool := negb (is_ a b).

End Py.

(* ===================================================================== *)
(** ** fnmatch.fnmatchcase *)
(* ===================================================================== *)

Module Fnmatch.

(** What a pattern is made of, as [fnmatch.translate] reads it. *)
Inductive token : Type :=
| TStar                                   (* "*"      *)
| TAny                                    (* "?"      *)
| TClass (negated : bool) (body : list ascii)   (* "[seq]", "[!seq]" *)
| TLit (c : ascii).                       (* anything else *)

(** The scan for the closing bracket of [translate]: [rest] starts right
    after an opening bracket.  An exclamation mark, then a closing
    bracket, are stepped over; the first closing bracket after that ends
    the class.  Returns the characters in between ([pat[i:j]]), or [None]
    when the pattern ends first. *)
Fixpoint scan_to_close (rest : list ascii) : option (list ascii) :=
  match rest with
  | [] => None
  | c :: rest' =>
      if Ascii.eqb c "]" then Some []
      else option_map (cons c) (scan_to_close rest')
  end.

Definition skip_one (c : ascii) (rest : list ascii)
  : list ascii * list ascii :=
  match rest with
  | c' :: rest' => if Ascii.eqb c' c then ([c'], rest') else ([], rest)
  | [] => ([], rest)
  end.

Definition find_close (rest : list ascii) : option (list ascii) :=
  let '(bang, r1) := skip_one "!" rest in
  let '(brk, r2) := skip_one "]" r1 in
  option_map (fun tl => bang ++ brk ++ tl) (scan_to_close r2).

(** [translate]: [skip] is the number of characters of the pattern that a
    class, already read, still covers (the jump [i = j+1]). *)
Fixpoint tokens_go (skip : nat) (pat : list ascii) : list token :=
  match pat with
  | [] => []
  | c :: pat' =>
      match skip with
      | S k => tokens_go k pat'
      | O =>
          if Ascii.eqb c "*" then TStar :: tokens_go 0 pat'
          else if Ascii.eqb c "?" then TAny :: tokens_go 0 pat'
          else if Ascii.eqb c "[" then
            match find_close pat' with
            | None => TLit "[" :: tokens_go 0 pat'
            | Some stuff =>
                let tok :=
                  match stuff with
                  | b :: body =>
                      if Ascii.eqb b "!" then TClass true body
                      else TClass false stuff
                  | [] => TClass false []
                  end in
                tok :: tokens_go (S (length stuff)) pat'
            end
          else TLit c :: tokens_go 0 pat'
      end
  end.

Definition tokens (pat : string) : list token :=
  tokens_go 0 (list_ascii_of_string pat).

Definition ascii_leb (a b : ascii) : bool :=
  Nat.leb (nat_of_ascii a) (nat_of_ascii b).

(** Membership in the body of a class: [a-b] is the range from [a] to
    [b], a hyphen that has no character on one side stands for itself, as
    does every other character.  A range whose ends are in the wrong
    order holds nothing. *)
Fixpoint in_class (body : list ascii) (x : ascii) : bool :=
  match body with
  | [] => false
  | lo :: body' =>
      match body' with
      | dash :: hi :: body'' =>
          if Ascii.eqb dash "-" then
            (ascii_leb lo x && ascii_leb x hi) || in_class body'' x
          else Ascii.eqb lo x || in_class body' x
      | _ => Ascii.eqb lo x || in_class body' x
      end
  end.

(** One character against a token that takes exactly one. *)
Definition token_ok (t : token) (x : ascii) : bool :=
  match t with
  | TStar => true
  | TAny => true
  | TClass neg body => if neg then negb (in_class body x) else in_class body x
  | TLit c => Ascii.eqb c x
  end.

(** The whole name against the whole pattern ([re.match] of the
    translated pattern, which ends in [\Z]; the dot takes every
    character). *)
Fixpoint matches (ts : list token) (name : list ascii) : bool :=
  match ts with
  | [] => match name with [] => true | _ :: _ => false end
  | TStar :: ts' =>
      (fix star (n : list ascii) : bool :=
         matches ts' n ||
         match n with
         | [] => false
         | _ :: n' => star n'
         end) name
  | t :: ts' =>
      match name with
      | [] => false
      | x :: name' => token_ok t x && matches ts' name'
      end
  end.

Definition fnmatchcase (name pat : string) : bool :=
  matches (tokens pat) (list_ascii_of_string name).

End Fnmatch.

(* ===================================================================== *)
(** ** The objects of cornice and the functions of cors.py *)
(* ===================================================================== *)

Module Cornice.

(** One entry of [request.errors]: [Errors.add(location, name,
    description)] appends such an entry to the list. *)
Record error : Type :=
  Error { location : string; name : string; description : string }.

#[export] Instance error_eq_dec : EqDecision error.
Proof. solve_decision. Defined.

(** What the code asks of the service.  The class is defined in
    [cornice/service.py]; here every attribute and method that [cors.py]
    and the options view read is a field. *)
Record Service : Type := {
  cors_supported_headers : list string;
  cors_supported_methods : list string;
  cors_supported_origins : list string;
  cors_origins_for : string -> list string;
  cors_max_age_for : string -> option Z;
  cors_support_credentials : string -> bool
}.

(** [response.headers] is a mutable mapping from header names to
    values. *)
Record Response : Type := { response_headers : gmap string string }.

Record Request : Type := {
  method : Py.str_obj;
  headers : gmap string string;
  errors : list error;
  response : Response
}.

(** [request.errors.add(location, name, description)] *)
Definition errors_add (loc nm desc : string) (request : Request) : Request :=
  {| method := method request;
     headers := headers request;
     errors := errors request ++ [Error loc nm desc];
     response := response request |}.

(** [response.headers[key] = value] *)
Definition set_header (key value : string) (resp : Response) : Response :=
  {| response_headers := <[key := value]> (response_headers resp) |}.

(** [request.response.headers[key] = value] *)
Definition set_response_header (key value : string) (request : Request)
  : Request :=
  {| method := method request;
     headers := headers request;
     errors := errors request;
     response := set_header key value (response request) |}.

Definition dquote : string := String (ascii_of_nat 34) EmptyString.

(** The four entries the code adds, named as the specification names
    them. *)
Definition MissingHeader (loc header : string) : error :=
  Error loc header "this header is mandatory".
Definition MethodNotAllowed (loc : string) : error :=
  Error loc "Access-Control-Request-Method" "Method not allowed".
Definition HeaderNotAllowed (loc h : string) : error :=
  Error loc "Access-Control-Request-Headers"
        ("Header " ++ dquote ++ h ++ dquote ++ " not allowed").
Definition OriginNotAllowed (loc origin : string) : error :=
  Error loc "Origin" (origin ++ " not allowed").

(** [request.headers.get('Access-Control-Request-Headers', ())] followed
    by [if requested_headers: requested_headers = requested_headers.split()]:
    the names the loop runs over.  Without the header the default is the
    empty tuple; an empty value is left as it is, and a loop over the
    empty string has no round. *)
Definition requested_headers_of (request : Request) : list string :=
  match headers request !! "Access-Control-Request-Headers" with
  | None => []
  | Some v => if Py.truthy_str v then Py.split v else []
  end.

(** The loop [for h in requested_headers: if not h in supported_headers:
    request.errors.add(...)]. *)
Definition check_headers (loc : string) (supported_headers : list string)
    (requested_headers : list string) (request : Request) : Request :=
  fold_left
    (fun req h =>
       if negb (bool_decide (h ∈ supported_headers))
       then errors_add loc "Access-Control-Request-Headers"
              ("Header " ++ dquote ++ h ++ dquote ++ " not allowed") req
       else req)
    requested_headers request.

(** [cors.py], [get_cors_preflight_view(service)]: the view it returns.
    The result is the value the view returns ([None] for the bare
    [return], [Some "ok"] otherwise) and the request as the view leaves
    it. *)
Definition _preflight_view (service : Service) (request : Request)
  : option string * Request :=
  let origin := headers request !! "Origin" in
  let supported_headers := cors_supported_headers service in
  let request :=
    if negb (Py.truthy origin)
    then errors_add "header" "Origin" "this header is mandatory" request
    else request in
  let requested_method :=
    headers request !! "Access-Control-Request-Method" in
  let request :=
    if negb (Py.truthy requested_method)
    then errors_add "header" "Access-Control-Request-Method"
           "this header is mandatory" request
    else request in
  if negb (Py.truthy requested_method && Py.truthy origin)
  then (None, request)
  else
    match requested_method with
    | None => (None, request)
    | Some requested_method =>
        let requested_headers := requested_headers_of request in
        let request :=
          if negb (bool_decide
                     (requested_method ∈ cors_supported_methods service))
          then errors_add "header" "Access-Control-Request-Method"
                 "Method not allowed" request
          else request in
        let request :=
          check_headers "header" supported_headers requested_headers
            request in
        let request :=
          set_response_header "Access-Control-Allow-Headers"
            (Py.join ", " supported_headers) request in
        let request :=
          set_response_header "Access-Control-Allow-Methods"
            (Py.join "," (cors_supported_methods service)) request in
        let max_age := cors_max_age_for service requested_method in
        let request :=
          match max_age with
          | Some age =>
              set_response_header "Access-Control-Max-Age"
                (Py.str_of_int age) request
          | None => request
          end in
        (Some "ok", request)
    end.

(** [cors.py], [_get_method]. *)
Definition _get_method (request : Request) : string :=
  if Py.eq (method request) (Py.const "OPTIONS")
  then default (Py.chars (method request))
         (headers request !! "Access-Control-Request-Method")
  else Py.chars (method request).

(** [cors.py], [get_cors_validator(service)]: the validator it returns.
    The validator returns nothing; the result is the request as it leaves
    it. *)
Definition _cors_validator (service : Service) (request : Request)
  : Request :=
  let method := _get_method request in
  let origin := headers request !! "Origin" in
  match origin with
  | Some origin =>
      if Py.truthy_str origin then
        if negb (existsb (fun o => Fnmatch.fnmatchcase origin o)
                   (cors_origins_for service method))
        then errors_add "header" "Origin" (origin ++ " not allowed") request
        else set_response_header "Access-Control-Allow-Origin" origin request
      else request
  | None => request
  end.

(** [cors.py], [get_cors_filter(service)]: the filter it returns. *)
Definition _cors_filter (service : Service) (resp : Response)
    (request : Request) : Response :=
  let method_ := _get_method request in
  let resp :=
    if cors_support_credentials service method_
       && negb (bool_decide
                  (is_Some (response_headers resp
                              !! "Access-Control-Allow-Credentials")))
    then set_header "Access-Control-Allow-Credentials" "true" resp
    else resp in
  let resp :=
    if Py.is_not (method request) (Py.const "OPTIONS") then
      let supported_headers := cors_supported_headers service in
      match supported_headers with
      | _ :: _ =>
          set_header "Access-Control-Expose-Headers"
            (Py.join ", " supported_headers) resp
      | [] => resp
      end
    else resp in
  resp.

(** [pyramidhook.py], [get_options_view(service)]: the view it returns.
    [fnmatch.fnmatch] normalises the case of both its arguments with
    [os.path.normcase], which depends on the platform, and then calls
    [fnmatchcase]. *)
Definition _options_view (normcase : string -> string) (service : Service)
    (request : Request) : option string * Request :=
  let origin := headers request !! "Origin" in
  let request :=
    if negb (Py.truthy origin)
    then errors_add "headers" "Origin" "this header is mandatory" request
    else request in
  let requested_method :=
    headers request !! "Access-Control-Request-Method" in
  let request :=
    if negb (Py.truthy requested_method)
    then errors_add "headers" "Access-Control-Request-Method"
           "this header is mandatory" request
    else request in
  if negb (Py.truthy requested_method && Py.truthy origin)
  then (None, request)
  else
    match requested_method, origin with
    | Some requested_method, Some origin =>
        let requested_headers := requested_headers_of request in
        let request :=
          if negb (existsb
                     (fun o => Fnmatch.fnmatchcase (normcase origin)
                                 (normcase o))
                     (cors_supported_origins service))
          then errors_add "headers" "Origin" (origin ++ " not allowed")
                 request
          else set_response_header "Access-Control-Allow-Origin" origin
                 request in
        let request :=
          if negb (bool_decide
                     (requested_method ∈ cors_supported_methods service))
          then errors_add "headers" "Access-Control-Request-Method"
                 "Method not allowed" request
          else request in
        let supported_headers := cors_supported_headers service in
        let request :=
          check_headers "headers" supported_headers requested_headers
            request in
        let request :=
          set_response_header "Access-Control-Allow-Methods"
            (Py.join "," (cors_supported_methods service)) request in
        let request :=
          set_response_header "Access-Control-Allow-Headers"
            (Py.join "," (cors_supported_headers service)) request in
        (Some "ok", request)
    | _, _ => (None, request)
    end.

End Cornice.

Import Cornice.

(* ===================================================================== *)
(** ** The other functions of pyramidhook.py *)
(* ===================================================================== *)

Module Pyramidhook.

(** What the functions below raise. *)
Inductive exception : Type :=
| HTTPMethodNotAllowed (allow : list string)
| HTTPNotAcceptable (content_type body : string)
| PredicateMismatch (service_name : string)
| TypeError
| AttributeError (attribute : string).

(** A call either returns a value or raises. *)
Inductive outcome (A : Type) : Type :=
| Returned (a : A)
| Raised (e : exception).
Arguments Returned {A} a.
Arguments Raised {A} e.

(** *** The fallback view and the accept predicate *)

(** What the fallback view reads of the service: its name, the methods it
    defines, its definitions (method, view, arguments) and
    [get_acceptable(method, filter_callables=True)]. *)
Record Service (V A : Type) : Type := {
  name : string;
  defined_methods : list string;
  definitions : list (string * V * gmap string A);
  get_acceptable : string -> list string
}.
Arguments name {V A} _.
Arguments defined_methods {V A} _.
Arguments definitions {V A} _.
Arguments get_acceptable {V A} _ _.

(** What it reads of the request: the verb, the [info] dictionary and
    [request.accept.best_match]. *)
Record Request : Type := {
  method : string;
  info : gmap string (list string);
  best_match : list string -> option string
}.

(** [match_accept_header(func, context, request)]: the value it returns
    and the request as it leaves it. *)
Definition match_accept_header {C : Type} (func : Request -> list string)
    (context : C) (request : Request) : bool * Request :=
  let acceptable := func request in
  let request :=
    {| method := method request;
       info := <["acceptable" := acceptable]> (info request);
       best_match := best_match request |} in
  (bool_decide (is_Some (best_match request acceptable)), request).

(** The loop [for content_type in request.info['acceptable']: if
    content_type not in acceptable: acceptable.append(content_type)]. *)
Definition merge_acceptable (acceptable extra : list string) : list string :=
  fold_left
    (fun acc content_type =>
       if negb (bool_decide (content_type ∈ acc))
       then acc ++ [content_type] else acc)
    extra acceptable.

Section FallbackView.

Context {V A : Type}.

(** [json.dumps] on a list of strings. *)
Variable json_dumps : list string -> string.

Variable service : Service V A.
Variable request : Request.

(** The loop over [service.definitions], from the definitions that are
    left and the list [acceptable] gathered so far. *)
Fixpoint fallback_loop (defs : list (string * V * gmap string A))
    (acceptable : list string) : exception :=
  match defs with
  | [] => PredicateMismatch (name service)
  | (method_, _, args) :: defs' =>
      if negb (bool_decide (method_ = method request))
      then fallback_loop defs' acceptable
      else if bool_decide (is_Some (args !! "accept")) then
        let acceptable := acceptable ++ get_acceptable service method_ in
        let acceptable :=
          match info request !! "acceptable" with
          | Some extra => merge_acceptable acceptable extra
          | None => acceptable
          end in
        if negb (Py.truthy (best_match request acceptable))
        then HTTPNotAcceptable "application/json" (json_dumps acceptable)
        else fallback_loop defs' acceptable
      else fallback_loop defs' acceptable
  end.

(** [get_fallback_view(service)]: the view it returns.  Every path
    through it ends in a [raise]. *)
Definition _fallback_view : exception :=
  if negb (bool_decide (method request ∈ defined_methods service))
  then HTTPMethodNotAllowed (defined_methods service)
  else fallback_loop (definitions service) [].

End FallbackView.

(** *** The tween *)

(** A filter as [kwargs['filters']] lists it: the name of a method of
    [ob], or a callable. *)
Inductive filter_ref : Type :=
| FilterName (attribute : string)
| FilterCallable (f : Response -> Response).

(** What the tween reads of the request.  [matched_route] is the pattern
    of the matched route; [cornice_args] is the pair (kwargs, ob), where
    [ob] answers [getattr(ob, attribute)] with a callable or not at
    all. *)
Record TweenRequest : Type := {
  matched_route : option string;
  registry : gmap string (gmap string Cornice.Service);
  cornice_args :
    option (gmap string (list filter_ref)
            * option (string -> option (Response -> Response)))
}.

(** The loop [for _filter in kwargs.get('filters', [])]. *)
Fixpoint apply_filters (ob : option (string -> option (Response -> Response)))
    (filters : list filter_ref) (response : Response) : outcome Response :=
  match filters with
  | [] => Returned response
  | FilterCallable f :: filters' => apply_filters ob filters' (f response)
  | FilterName attribute :: filters' =>
      match ob with
      | Some getattr =>
          match getattr attribute with
          | Some f => apply_filters ob filters' (f response)
          | None => Raised (AttributeError attribute)
          end
      | None => Raised TypeError
      end
  end.

(** [tween_factory(handler, registry)]: the tween it returns. *)
Definition cornice_tween (handler : TweenRequest -> Response)
    (request : TweenRequest) : outcome Response :=
  let response := handler request in
  match matched_route request with
  | Some pattern =>
      let services := default ∅ (registry request !! "cornice_services") in
      match services !! pattern with
      | Some _ =>
          let '(kwargs, ob) := default (∅, None) (cornice_args request) in
          apply_filters ob (default [] (kwargs !! "filters")) response
      | None => Returned response
      end
  | None => Returned response
  end.

(** *** wrap_request *)

(** The three attributes [wrap_request] looks after; [None] stands for an
    attribute the request does not have. *)
Record EventRequest : Type := {
  validated : option (gmap string string);
  errors : option (list Cornice.error);
  event_info : option (gmap string (list string))
}.

(** [wrap_request(event)], on [event.request]. *)
Definition wrap_request (request : EventRequest) : EventRequest :=
  let request :=
    match validated request with
    | None => {| validated := Some ∅;
                 errors := errors request;
                 event_info := event_info request |}
    | Some _ => request
    end in
  let request :=
    match errors request with
    | None => {| validated := validated request;
                 errors := Some [];
                 event_info := event_info request |}
    | Some _ => request
    end in
  let request :=
    match event_info request with
    | None => {| validated := validated request;
                 errors := errors request;
                 event_info := Some ∅ |}
    | Some _ => request
    end in
  request.

End Pyramidhook.

(* ===================================================================== *)
(** ** The service of the test suite *)
(* ===================================================================== *)

Module Squirel.

(** The service [squirel] of [tests/test_cors.py] as the views see it:
    GET (origin notmyidea.org), PUT (header X-My-Header) and the HEAD
    that comes with GET take part in CORS, POST does not. *)
Definition service : Service := {|
  cors_supported_headers := ["X-My-Header"];
  cors_supported_methods := ["GET"; "HEAD"; "PUT"];
  cors_supported_origins := ["foobar"; "notmyidea.org"];
  cors_origins_for := fun m =>
    if bool_decide (m = "GET") then ["notmyidea.org"] else ["foobar"];
  cors_max_age_for := fun _ => None;
  cors_support_credentials := fun _ => false
|}.

Definition options (hs : list (string * string)) : Request := {|
  method := Py.const "OPTIONS";
  headers := list_to_map hs;
  errors := [];
  response := {| response_headers := ∅ |}
|}.

End Squirel.

(* ===================================================================== *)
(** ** Notions used in the statements *)
(* ===================================================================== *)

(** A header is missing for the code when [headers.get] gives [None] or the
    empty string: both are falsy. *)
Definition absent_or_empty (v : option string) : Prop :=
  v = None ∨ v = Some EmptyString.

(** A header has a value for the code when [headers.get] gives a string
    that is not empty. *)
Definition has_value (v : option string) (s : string) : Prop :=
  v = Some s ∧ s ≠ EmptyString.

(** The characters [translate] gives a meaning of their own. *)
Definition special (c : ascii) : bool :=
  Ascii.eqb c "*" || Ascii.eqb c "?" || Ascii.eqb c "[".

(** A pattern none of whose characters is special. *)
Definition plain (pat : string) : Prop :=
  forallb (λ c, negb (special c)) (list_ascii_of_string pat) = true.

(** The names the loop objects to, in order. *)
Definition offending (supported requested : list string) : list string :=
  filter (λ h, h ∉ supported) requested.

(** The entry for the requested method, when it is not supported. *)
Definition method_errors (service : Service) (loc m : string) : list error :=
  if bool_decide (m ∈ cors_supported_methods service)
  then [] else [MethodNotAllowed loc].

(** The response headers once the view has run to its end. *)
Definition preflight_headers (service : Service) (m : string)
    (old : gmap string string) : gmap string string :=
  let base :=
    <["Access-Control-Allow-Methods" :=
        Py.join "," (cors_supported_methods service)]>
      (<["Access-Control-Allow-Headers" :=
           Py.join ", " (cors_supported_headers service)]> old) in
  match cors_max_age_for service m with
  | Some age => <["Access-Control-Max-Age" := Py.str_of_int age]> base
  | None => base
  end.

(** The first statement of the filter, on the header map. *)
Definition credentials_step (service : Service) (method_ : string)
    (hs : gmap string string) : gmap string string :=
  if cors_support_credentials service method_
     && bool_decide (hs !! "Access-Control-Allow-Credentials" = None)
  then <["Access-Control-Allow-Credentials" := "true"]> hs
  else hs.

(** The second statement of the filter, on the header map. *)
Definition expose_step (service : Service) (verb : Py.str_obj)
    (hs : gmap string string) : gmap string string :=
  if Py.is_not verb (Py.const "OPTIONS")
     && bool_decide (cors_supported_headers service ≠ [])
  then <["Access-Control-Expose-Headers" :=
           Py.join ", " (cors_supported_headers service)]> hs
  else hs.

(** The service with other origin patterns and everything else alike. *)
Definition with_origins (origins : list string)
    (origins_for : string -> list string) (service : Service) : Service := {|
  cors_supported_headers := cors_supported_headers service;
  cors_supported_methods := cors_supported_methods service;
  cors_supported_origins := origins;
  cors_origins_for := origins_for;
  cors_max_age_for := cors_max_age_for service;
  cors_support_credentials := cors_support_credentials service
|}.

(** The request with another value for one header and everything else
    alike. *)
Definition with_header (key value : string) (request : Request) : Request := {|
  method := method request;
  headers := <[key := value]> (headers request);
  errors := errors request;
  response := response request
|}.

(* ===================================================================== *)
(** ** Requests used as examples *)
(* ===================================================================== *)

Module Ex.

(** OPTIONS /squirel without any CORS header. *)
Definition bare : Request := Squirel.options [].

(** OPTIONS /squirel with an empty Access-Control-Request-Method and no
    Origin. *)
Definition empty_method : Request :=
  Squirel.options [("Access-Control-Request-Method", EmptyString)].

(** OPTIONS /squirel with an empty Origin, asking for DELETE. *)
Definition empty_origin : Request :=
  Squirel.options
    [("Origin", EmptyString); ("Access-Control-Request-Method", "DELETE")].

(** OPTIONS /squirel with an empty Origin, asking for GET. *)
Definition empty_origin_get : Request :=
  Squirel.options
    [("Origin", EmptyString); ("Access-Control-Request-Method", "GET")].

(** The preflight of [test_correct_origin]. *)
Definition correct_origin : Request :=
  Squirel.options
    [("Origin", "notmyidea.org"); ("Access-Control-Request-Method", "GET")].

(** The preflight of [test_incorrect_origin]. *)
Definition incorrect_origin : Request :=
  Squirel.options
    [("Origin", "lolnet.org"); ("Access-Control-Request-Method", "GET")].

(** A preflight that asks for a method and two headers the service does
    not support, next to one it does. *)
Definition greedy : Request :=
  Squirel.options
    [("Origin", "notmyidea.org");
     ("Access-Control-Request-Method", "DELETE");
     ("Access-Control-Request-Headers", "X-My-Header x-my-header  X-Other")].

End Ex.

(** A variant of the test service with a maximum age for GET. *)
Definition squirel_with_max_age : Service := {|
  cors_supported_headers := ["X-My-Header"; "X-Your-Header"];
  cors_supported_methods := cors_supported_methods Squirel.service;
  cors_supported_origins := cors_supported_origins Squirel.service;
  cors_origins_for := cors_origins_for Squirel.service;
  cors_max_age_for := fun m => if bool_decide (m = "GET") then Some 3600%Z
                               else None;
  cors_support_credentials := fun _ => true
|}.

(** A service that lets every origin in, for every method. *)
Definition open_service : Service := {|
  cors_supported_headers := [];
  cors_supported_methods := ["GET"];
  cors_supported_origins := ["*"];
  cors_origins_for := fun _ => ["*"];
  cors_max_age_for := fun _ => None;
  cors_support_credentials := fun _ => false
|}.


(** An OPTIONS request as a server hands it over: the verb was read from
    the request line, so its string is not the interned constant. *)
Definition served_options : Request := {|
  method := Py.StrObj "OPTIONS" false;
  headers := list_to_map [("Origin", "notmyidea.org");
                          ("Access-Control-Request-Method", "GET")];
  errors := [];
  response := {| response_headers := ∅ |}
|}.

(** A string without any of the characters [str.split()] splits on. *)
Definition no_space (w : string) : Prop :=
  forallb (λ c, negb (Py.is_space c)) (list_ascii_of_string w) = true.

(** A header name as [str.split()] yields them: not empty and without
    whitespace. *)
Definition header_token (w : string) : Prop :=
  w ≠ EmptyString ∧ no_space w.

(** A preflight that names its headers with a comma between them. *)
Definition comma_separated : Request := {|
  method := Py.const "OPTIONS";
  headers := list_to_map
    [("Origin", "notmyidea.org");
     ("Access-Control-Request-Method", "GET");
     ("Access-Control-Request-Headers", "X-My-Header,X-Other")];
  errors := [];
  response := {| response_headers := ∅ |}
|}.

(** A preflight that names two headers with a space between them. *)
Definition two_names : Request := {|
  method := Py.const "OPTIONS";
  headers := list_to_map
    [("Origin", "notmyidea.org");
     ("Access-Control-Request-Method", "GET");
     ("Access-Control-Request-Headers", "X-My-Header x-my-header")];
  errors := [];
  response := {| response_headers := ∅ |}
|}.

(** The entry with its location spelled as the options view of
    pyramidhook.py spells it. *)
Definition relocate (e : error) : error :=
  Error "headers" (name e) (description e).

(** A response that already carries both headers of the filter. *)
Definition stamped_response : Response := {|
  response_headers :=
    <["Access-Control-Expose-Headers" := "X-Old"]>
      (<["Access-Control-Allow-Credentials" := "false"]> ∅)
|}.

(** The request matched a route under which a service is registered, and
    its [cornice_args] hold these filters and this [ob]. *)
Definition tween_filters (request : Pyramidhook.TweenRequest)
    (filters : list Pyramidhook.filter_ref)
    (ob : option (string -> option (Response -> Response))) : Prop :=
  ∃ pattern service kwargs,
    Pyramidhook.matched_route request = Some pattern
    ∧ default ∅ (Pyramidhook.registry request !! "cornice_services")
        !! pattern = Some service
    ∧ Pyramidhook.cornice_args request = Some (kwargs, ob)
    ∧ kwargs !! "filters" = Some filters.

(** A request to /squirel as the tween sees it. *)
Definition squirel_tween_request (filters : list Pyramidhook.filter_ref)
    (ob : option (string -> option (Response -> Response)))
  : Pyramidhook.TweenRequest := {|
  Pyramidhook.matched_route := Some "/squirel";
  Pyramidhook.registry :=
    {["cornice_services" := {["/squirel" := Squirel.service]}]};
  Pyramidhook.cornice_args := Some ({["filters" := filters]}, ob)
|}.

(** A request no route matched. *)
Definition unrouted_request : Pyramidhook.TweenRequest := {|
  Pyramidhook.matched_route := None;
  Pyramidhook.registry := ∅;
  Pyramidhook.cornice_args := None
|}.

(** A handler that answers with an empty response. *)
Definition empty_handler (_ : Pyramidhook.TweenRequest) : Response :=
  {| response_headers := ∅ |}.

(** An object with one method, [stamp], that sets a header. *)
Definition stamping_object (attribute : string)
  : option (Response -> Response) :=
  if bool_decide (attribute = "stamp")
  then Some (set_header "X-Stamp" "1") else None.

(** A service with a GET view that accepts text/plain only, a POST view
    without accept argument, and PUT among its defined methods. *)
Definition squirel_views : Pyramidhook.Service unit string := {|
  Pyramidhook.name := "squirel";
  Pyramidhook.defined_methods := ["GET"; "POST"; "PUT"];
  Pyramidhook.definitions :=
    [("GET", tt, {["accept" := "text/plain"]}); ("POST", tt, ∅)];
  Pyramidhook.get_acceptable := fun m =>
    if bool_decide (m = "GET") then ["text/plain"] else []
|}.

(** A client that takes application/json and nothing else. *)
Definition json_client (verb : string) : Pyramidhook.Request := {|
  Pyramidhook.method := verb;
  Pyramidhook.info := ∅;
  Pyramidhook.best_match := fun offers =>
    if bool_decide ("application/json" ∈ offers)
    then Some "application/json" else None
|}.

(** A stand-in for [json.dumps] in the examples. *)
Definition dumps_stand_in (l : list string) : string := Py.join "," l.

(** GET /squirel from notmyidea.org. *)
Definition get_from_notmyidea : Request := {|
  method := Py.const "GET";
  headers := {["Origin" := "notmyidea.org"]};
  errors := [];
  response := {| response_headers := ∅ |}
|}.

(** A service with one wildcard pattern for every method. *)
Definition subdomain_service : Service := {|
  cors_supported_headers := ["X-My-Header"];
  cors_supported_methods := ["GET"];
  cors_supported_origins := ["*.example.com"];
  cors_origins_for := fun _ => ["*.example.com"];
  cors_max_age_for := fun _ => None;
  cors_support_credentials := fun _ => false
|}.

(** GET from a.example.com. *)
Definition get_from_subdomain : Request := {|
  method := Py.const "GET";
  headers := {["Origin" := "a.example.com"]};
  errors := [];
  response := {| response_headers := ∅ |}
|}.

(* ===================================================================== *)
(** ** Basic facts about the built-ins *)
(* ===================================================================== *)

Lemma truthy_false_iff (v : option string) :
  Py.truthy v = false ↔ absent_or_empty v.
Proof.
  unfold absent_or_empty. destruct v as [[|c s]|]; simpl; split;
    intros H; try done; try (by left); try (by right).
  destruct H as [H|H]; discriminate H.
Qed.

Lemma truthy_true_iff (v : option string) :
  Py.truthy v = true ↔ ∃ s, has_value v s.
Proof.
  unfold has_value. destruct v as [[|c s]|]; simpl; split; intros H;
    try done.
  - destruct H as (s & Hs & Hne). by inversion Hs; subst.
  - by exists (String c s).
  - by destruct H as (s & Hs & _).
Qed.

Lemma has_value_truthy (v : option string) (s : string) :
  has_value v s → Py.truthy v = true.
Proof. intros H. apply truthy_true_iff. by exists s. Qed.

Example split_ex : Py.split "  X-A	X-B  Y " = ["X-A"; "X-B"; "Y"].
Proof. reflexivity. Qed.

Example join_ex : Py.join ", " ["a"; "b"; "c"] = "a, b, c".
Proof. reflexivity. Qed.

Example str_of_int_ex : Py.str_of_int 3600 = "3600".
Proof. reflexivity. Qed.

(* ===================================================================== *)
(** ** What fnmatchcase accepts *)
(* ===================================================================== *)

Section FnmatchFacts.

Import Fnmatch.

Lemma matches_star_nil (ts : list token) :
  matches (TStar :: ts) [] = matches ts [] || false.
Proof. reflexivity. Qed.

Lemma matches_star_cons (ts : list token) (x : ascii) (n : list ascii) :
  matches (TStar :: ts) (x :: n) =
  matches ts (x :: n) || matches (TStar :: ts) n.
Proof. reflexivity. Qed.

(** A star takes any run of characters, the empty one included. *)
Lemma matches_star (ts : list token) (n : list ascii) :
  matches (TStar :: ts) n = true ↔
  ∃ pre post, n = pre ++ post ∧ matches ts post = true.
Proof.
  induction n as [|x n IH].
  - rewrite matches_star_nil, orb_false_r. split.
    + intros H. by exists [], [].
    + intros (pre & post & E & H). symmetry in E.
      apply app_eq_nil in E as [_ ->]. exact H.
  - rewrite matches_star_cons, orb_true_iff, IH. split.
    + intros [H | (pre & post & E & H)].
      * by exists [], (x :: n).
      * exists (x :: pre), post. by rewrite E.
    + intros (pre & post & E & H). destruct pre as [|y pre].
      * left. simpl in E. by rewrite E.
      * right. inversion E; subst. by exists pre, post.
Qed.

(** A pattern without special characters is read as it is written. *)
Lemma tokens_go_literal (pat : list ascii) :
  forallb (λ c, negb (special c)) pat = true →
  tokens_go 0 pat = map TLit pat.
Proof.
  induction pat as [|c pat IH]; [done|]. simpl.
  intros H. apply andb_true_iff in H as [Hc Hpat].
  unfold special in Hc. apply negb_true_iff in Hc.
  apply orb_false_iff in Hc as [Hc H3].
  apply orb_false_iff in Hc as [H1 H2].
  rewrite H1, H2, H3. by rewrite IH.
Qed.

(** Literal characters are compared one by one, so upper and lower case
    differ. *)
Lemma matches_literal (pat n : list ascii) :
  matches (map TLit pat) n = true ↔ n = pat.
Proof.
  revert n. induction pat as [|c pat IH]; intros n.
  - destruct n; simpl; split; intros H; done.
  - destruct n as [|x n]; simpl; [split; intros H; done|].
    rewrite andb_true_iff, IH, Ascii.eqb_eq. split.
    + by intros [-> ->].
    + intros H. by inversion H.
Qed.

Lemma list_ascii_of_string_inj (a b : string) :
  list_ascii_of_string a = list_ascii_of_string b → a = b.
Proof.
  intros H. rewrite <- (string_of_list_ascii_of_string a).
  rewrite <- (string_of_list_ascii_of_string b). by rewrite H.
Qed.

Lemma list_ascii_of_string_app (a b : string) :
  list_ascii_of_string (a ++ b) =
  list_ascii_of_string a ++ list_ascii_of_string b.
Proof. induction a as [|c a IH]; [done|]. simpl. by rewrite IH. Qed.

(** Without wildcards the match is equality of strings. *)
Lemma fnmatchcase_plain (name pat : string) :
  plain pat → (fnmatchcase name pat = true ↔ name = pat).
Proof.
  intros Hp. unfold fnmatchcase, tokens.
  rewrite (tokens_go_literal _ Hp), matches_literal. split.
  - apply list_ascii_of_string_inj.
  - by intros ->.
Qed.

(** The pattern "*" takes every name. *)
Lemma fnmatchcase_star (name : string) : fnmatchcase name "*" = true.
Proof.
  unfold fnmatchcase. change (tokens "*") with [TStar].
  apply matches_star. exists (list_ascii_of_string name), [].
  by rewrite app_nil_r.
Qed.

(** A star followed by plain text takes the names that end in that
    text. *)
Lemma fnmatchcase_star_suffix (name suffix : string) :
  plain suffix →
  (fnmatchcase name (String "*" suffix) = true ↔
   ∃ before : string, name = (before ++ suffix)%string).
Proof.
  intros Hp. unfold fnmatchcase.
  change (tokens (String "*" suffix))
    with (TStar :: tokens_go 0 (list_ascii_of_string suffix)).
  rewrite (tokens_go_literal _ Hp), matches_star. split.
  - intros (pre & post & E & H). apply matches_literal in H. subst post.
    exists (string_of_list_ascii pre). apply list_ascii_of_string_inj.
    by rewrite list_ascii_of_string_app, list_ascii_of_string_of_list_ascii.
  - intros [before ->].
    exists (list_ascii_of_string before), (list_ascii_of_string suffix).
    split; [apply list_ascii_of_string_app | by apply matches_literal].
Qed.

End FnmatchFacts.

Example fnmatchcase_subdomain :
  Fnmatch.fnmatchcase "a.example.com" "*.example.com" = true.
Proof. reflexivity. Qed.

Example fnmatchcase_bare_domain :
  Fnmatch.fnmatchcase "example.com" "*.example.com" = false.
Proof. reflexivity. Qed.

Example fnmatchcase_upper_case :
  Fnmatch.fnmatchcase "A.EXAMPLE.COM" "*.example.com" = false.
Proof. reflexivity. Qed.

Example fnmatchcase_question_mark :
  Fnmatch.fnmatchcase "ab" "a?" = true ∧ Fnmatch.fnmatchcase "a" "a?" = false.
Proof. split; reflexivity. Qed.

Example fnmatchcase_class :
  Fnmatch.fnmatchcase "abc" "[!x-z]b[]c]" = true
  ∧ Fnmatch.fnmatchcase "ybc" "[!x-z]b[]c]" = false
  ∧ Fnmatch.fnmatchcase "[b" "[?" = true.
Proof. repeat split; reflexivity. Qed.

(* ===================================================================== *)
(** ** The loop over the requested headers *)
(* ===================================================================== *)

Section CheckHeaders.

Variable loc : string.
Variable supported : list string.

Lemma check_headers_nil (request : Request) :
  check_headers loc supported [] request = request.
Proof. reflexivity. Qed.

Lemma check_headers_cons (h : string) (hs : list string)
    (request : Request) :
  check_headers loc supported (h :: hs) request =
  check_headers loc supported hs
    (if negb (bool_decide (h ∈ supported))
     then errors_add loc "Access-Control-Request-Headers"
            ("Header " ++ dquote ++ h ++ dquote ++ " not allowed") request
     else request).
Proof. reflexivity. Qed.

(** The loop adds one entry per offending name, in order, and touches
    nothing else. *)
Lemma check_headers_spec (hs : list string) (request : Request) :
  check_headers loc supported hs request =
  {| method := method request;
     headers := headers request;
     errors :=
       errors request ++ map (HeaderNotAllowed loc) (offending supported hs);
     response := response request |}.
Proof.
  revert request. induction hs as [|h hs IH]; intros request.
  - rewrite check_headers_nil. unfold offending. simpl.
    rewrite app_nil_r. by destruct request.
  - rewrite check_headers_cons, IH. unfold offending.
    rewrite filter_cons. case_bool_decide as Hin; simpl.
    + destruct (decide (h ∉ supported)) as [Hn|_]; [by destruct Hn|].
      reflexivity.
    + destruct (decide (h ∉ supported)) as [_|Hn]; [|by destruct Hn].
      simpl. by rewrite <- app_assoc.
Qed.

End CheckHeaders.

(* ===================================================================== *)
(** ** The preflight view *)
(* ===================================================================== *)

Section Preflight.

Variable service : Service.

(** The short-circuit: what the view does when one of the two mandatory
    headers is falsy. *)
Lemma preflight_view_missing (request : Request) :
  Py.truthy (headers request !! "Access-Control-Request-Method")
    && Py.truthy (headers request !! "Origin") = false →
  _preflight_view service request =
  (None,
   {| method := method request;
      headers := headers request;
      errors :=
        errors request
          ++ (if Py.truthy (headers request !! "Origin") then []
              else [MissingHeader "header" "Origin"])
          ++ (if Py.truthy
                   (headers request !! "Access-Control-Request-Method")
              then []
              else [MissingHeader "header" "Access-Control-Request-Method"]);
      response := response request |}).
Proof.
  intros H. unfold _preflight_view.
  destruct (Py.truthy (headers request !! "Origin")) eqn:Ho; simpl;
    destruct (Py.truthy (headers request !! "Access-Control-Request-Method"))
      eqn:Hm; simpl in *; try discriminate H; rewrite ?Hm; simpl;
    unfold errors_add, MissingHeader; simpl;
    rewrite <- ?app_assoc, ?app_nil_r; reflexivity.
Qed.

(** The full run: what the view does when both mandatory headers have a
    value. *)
Lemma preflight_view_complete (request : Request) (o m : string) :
  has_value (headers request !! "Origin") o →
  has_value (headers request !! "Access-Control-Request-Method") m →
  _preflight_view service request =
  (Some "ok",
   {| method := method request;
      headers := headers request;
      errors :=
        errors request
          ++ method_errors service "header" m
          ++ map (HeaderNotAllowed "header")
               (offending (cors_supported_headers service)
                  (requested_headers_of request));
      response :=
        {| response_headers :=
             preflight_headers service m
               (response_headers (response request)) |}
   |}).
Proof.
  intros [Ho Hone] [Hm Hmne]. unfold _preflight_view.
  destruct o as [|co o]; [done|]. destruct m as [|cm m]; [done|].
  rewrite Ho. simpl. rewrite Hm. simpl.
  rewrite !check_headers_spec. unfold method_errors, preflight_headers.
  unfold requested_headers_of, set_response_header, set_header. simpl.
  case_bool_decide; simpl;
    destruct (cors_max_age_for service (String cm m)); simpl;
    rewrite <- ?app_assoc; reflexivity.
Qed.

End Preflight.

Example preflight_greedy :
  _preflight_view Squirel.service Ex.greedy =
  (Some "ok",
   {| method := Py.const "OPTIONS";
      headers := headers Ex.greedy;
      errors := [MethodNotAllowed "header";
                 HeaderNotAllowed "header" "x-my-header";
                 HeaderNotAllowed "header" "X-Other"];
      response :=
        {| response_headers :=
             <["Access-Control-Allow-Methods" := "GET,HEAD,PUT"]>
               (<["Access-Control-Allow-Headers" := "X-My-Header"]> ∅) |} |}).
Proof.
  rewrite (preflight_view_complete Squirel.service Ex.greedy
             "notmyidea.org" "DELETE"); [|by split..].
  reflexivity.
Qed.

(* ===================================================================== *)
(** ** C2: the short-circuit on a missing mandatory header *)
(* ===================================================================== *)

(** With no Origin and an Access-Control-Request-Method that is there but
    empty, one header is absent and the view records two errors: the code
    counts an empty header as missing. *)
Lemma C2_counterexample :
  headers Ex.empty_method !! "Origin" = None ∧
  headers Ex.empty_method !! "Access-Control-Request-Method"
    = Some EmptyString ∧
  errors (snd (_preflight_view Squirel.service Ex.empty_method)) =
    [MissingHeader "header" "Origin";
     MissingHeader "header" "Access-Control-Request-Method"].
Proof. vm_compute. done. Qed.

(** C2 (amended).  For every policy, if the Origin header or the
    Access-Control-Request-Method header is absent or empty, the preflight
    view returns at once (the bare [return]), leaves the response as it
    was, and adds to the errors exactly one "this header is mandatory"
    entry per header that is absent or empty: two when both are, one when
    only one is. *)
Theorem C2_preflight_missing_header (service : Service) (request : Request) :
  absent_or_empty (headers request !! "Origin")
  ∨ absent_or_empty (headers request !! "Access-Control-Request-Method") →
  let result := _preflight_view service request in
  fst result = None
  ∧ response (snd result) = response request
  ∧ (absent_or_empty (headers request !! "Origin") →
     absent_or_empty (headers request !! "Access-Control-Request-Method") →
     errors (snd result) =
       errors request
         ++ [MissingHeader "header" "Origin";
             MissingHeader "header" "Access-Control-Request-Method"])
  ∧ (absent_or_empty (headers request !! "Origin") →
     (∃ m, has_value (headers request !! "Access-Control-Request-Method") m) →
     errors (snd result) =
       errors request ++ [MissingHeader "header" "Origin"])
  ∧ ((∃ o, has_value (headers request !! "Origin") o) →
     absent_or_empty (headers request !! "Access-Control-Request-Method") →
     errors (snd result) =
       errors request
         ++ [MissingHeader "header" "Access-Control-Request-Method"]).
Proof.
  intros H result. subst result.
  rewrite preflight_view_missing.
  2: { destruct H as [H|H]; apply truthy_false_iff in H; rewrite H;
       [apply andb_false_r | apply andb_false_l]. }
  simpl. repeat split.
  - intros Ho Hm. apply truthy_false_iff in Ho, Hm. by rewrite Ho, Hm.
  - intros Ho Hm. apply truthy_false_iff in Ho. apply truthy_true_iff in Hm.
    by rewrite Ho, Hm.
  - intros Ho Hm. apply truthy_true_iff in Ho. apply truthy_false_iff in Hm.
    by rewrite Ho, Hm.
Qed.

Lemma C2_witness :
  (absent_or_empty (headers Ex.bare !! "Origin")
   ∨ absent_or_empty (headers Ex.bare !! "Access-Control-Request-Method"))
  ∧ fst (_preflight_view Squirel.service Ex.bare) = None
  ∧ response (snd (_preflight_view Squirel.service Ex.bare)) = response Ex.bare
  ∧ errors (snd (_preflight_view Squirel.service Ex.bare)) =
      [MissingHeader "header" "Origin";
       MissingHeader "header" "Access-Control-Request-Method"].
Proof.
  assert (Ho : absent_or_empty (headers Ex.bare !! "Origin"))
    by (left; reflexivity).
  assert (Hm : absent_or_empty
                 (headers Ex.bare !! "Access-Control-Request-Method"))
    by (left; reflexivity).
  destruct (C2_preflight_missing_header Squirel.service Ex.bare
              (or_introl Ho)) as (Hret & Hresp & Hboth & _).
  split; [by left|]. split; [exact Hret|]. split; [exact Hresp|].
  exact (Hboth Ho Hm).
Defined.

(* ===================================================================== *)
(** ** C3: the method and header checks *)
(* ===================================================================== *)

(** Both mandatory headers are there, the requested method DELETE is not
    supported, and yet no "Method not allowed" entry is recorded: the
    Origin header is empty, so the view stops before the check. *)
Lemma C3_counterexample :
  headers Ex.empty_origin !! "Origin" = Some EmptyString ∧
  headers Ex.empty_origin !! "Access-Control-Request-Method" = Some "DELETE" ∧
  ("DELETE" ∉ cors_supported_methods Squirel.service) ∧
  (MethodNotAllowed "header")
    ∉ errors (snd (_preflight_view Squirel.service Ex.empty_origin)).
Proof.
  split; [reflexivity|]. split; [reflexivity|].
  split; apply (bool_decide_unpack _); vm_compute; exact I.
Qed.

Lemma MethodNotAllowed_ne_HeaderNotAllowed (loc loc' h : string) :
  MethodNotAllowed loc ≠ HeaderNotAllowed loc' h.
Proof. unfold MethodNotAllowed, HeaderNotAllowed. intros H. inversion H. Qed.

(** Different names give different entries. *)
Lemma HeaderNotAllowed_inj (loc h1 h2 : string) :
  HeaderNotAllowed loc h1 = HeaderNotAllowed loc h2 → h1 = h2.
Proof.
  unfold HeaderNotAllowed. intros H. inversion H as [E]. clear H.
  apply list_ascii_of_string_inj.
  apply (f_equal list_ascii_of_string) in E.
  rewrite !list_ascii_of_string_app in E.
  apply app_inv_head in E. by apply app_inv_tail in E.
Qed.

Lemma filter_method_header_errors (loc : string) (hs : list string) :
  filter (λ e, e = MethodNotAllowed loc) (map (HeaderNotAllowed loc) hs) = [].
Proof.
  induction hs as [|h hs IH]; [done|]. simpl. rewrite filter_cons.
  destruct (decide (HeaderNotAllowed loc h = MethodNotAllowed loc)) as [E|_];
    [|exact IH].
  symmetry in E. by apply MethodNotAllowed_ne_HeaderNotAllowed in E.
Qed.

(** C3 (amended).  For every preflight request in which both mandatory
    headers are there and not empty, the entries the view adds to the
    errors are: one "Method not allowed" entry exactly when the requested
    method is not among the supported methods, followed by one
    [Header "h" not allowed] entry for each requested header name [h] that
    is not, character for character, among the supported headers (one entry
    per such name, in the order of the request). *)
Theorem C3_preflight_method_and_header_errors
    (service : Service) (request : Request) (o m : string) :
  has_value (headers request !! "Origin") o →
  has_value (headers request !! "Access-Control-Request-Method") m →
  let method_part :=
    if bool_decide (m ∈ cors_supported_methods service)
    then [] else [MethodNotAllowed "header"] in
  let header_part :=
    map (HeaderNotAllowed "header")
      (filter (λ h, h ∉ cors_supported_headers service)
         (requested_headers_of request)) in
  errors (snd (_preflight_view service request)) =
    errors request ++ method_part ++ header_part
  ∧ (length (filter (λ e, e = MethodNotAllowed "header")
               (method_part ++ header_part)) = 1
     ↔ m ∉ cors_supported_methods service)
  ∧ (length (filter (λ e, e = MethodNotAllowed "header")
               (method_part ++ header_part)) = 0
     ↔ m ∈ cors_supported_methods service)
  ∧ length header_part =
      length (filter (λ h, h ∉ cors_supported_headers service)
                (requested_headers_of request)).
Proof.
  intros Ho Hm method_part header_part.
  rewrite (preflight_view_complete service request o m Ho Hm). simpl.
  split; [reflexivity|].
  subst method_part header_part.
  rewrite filter_app, filter_method_header_errors, app_nil_r, length_map.
  case_bool_decide as Hin; simpl.
  - repeat split; try done; intros Hn; by destruct Hn.
  - repeat split; done.
Qed.

Lemma C3_witness :
  has_value (headers Ex.greedy !! "Origin") "notmyidea.org"
  ∧ has_value (headers Ex.greedy !! "Access-Control-Request-Method") "DELETE"
  ∧ errors (snd (_preflight_view Squirel.service Ex.greedy)) =
      [MethodNotAllowed "header";
       HeaderNotAllowed "header" "x-my-header";
       HeaderNotAllowed "header" "X-Other"].
Proof.
  assert (Ho : has_value (headers Ex.greedy !! "Origin") "notmyidea.org")
    by (split; [reflexivity | discriminate]).
  assert (Hm : has_value
                 (headers Ex.greedy !! "Access-Control-Request-Method")
                 "DELETE")
    by (split; [reflexivity | discriminate]).
  split; [exact Ho|]. split; [exact Hm|].
  destruct (C3_preflight_method_and_header_errors Squirel.service Ex.greedy
              "notmyidea.org" "DELETE" Ho Hm) as (Herr & _).
  rewrite Herr. reflexivity.
Defined.

(* ===================================================================== *)
(** ** C4: the response headers of a preflight *)
(* ===================================================================== *)




(* ===================================================================== *)
(** ** C5: the value the preflight view returns *)
(* ===================================================================== *)

(** In every case the errors of the request are kept: the view only
    appends. *)
Lemma preflight_view_keeps_errors (service : Service) (request : Request) :
  errors request `prefix_of` errors (snd (_preflight_view service request)).
Proof.
  destruct (Py.truthy (headers request !! "Access-Control-Request-Method")
            && Py.truthy (headers request !! "Origin")) eqn:E.
  - apply andb_true_iff in E as [Hm Ho].
    apply truthy_true_iff in Hm as [m Hm], Ho as [o Ho].
    rewrite (preflight_view_complete service request o m Ho Hm). simpl.
    by eexists.
  - rewrite (preflight_view_missing service request E). simpl. by eexists.
Qed.

(** Both mandatory headers are there and the view returns [None], not
    ['ok']: the Origin header is empty. *)
Lemma C5_counterexample :
  headers Ex.empty_origin_get !! "Origin" = Some EmptyString ∧
  headers Ex.empty_origin_get !! "Access-Control-Request-Method" = Some "GET" ∧
  fst (_preflight_view Squirel.service Ex.empty_origin_get) = None.
Proof. vm_compute. done. Qed.

(** C5 (amended).  For every preflight request in which both Origin and
    Access-Control-Request-Method are there and not empty, the view runs
    all its checks and returns ['ok'], whether or not it recorded errors;
    what it records is appended to the errors of the request, and the
    errors that were there before stay. *)
Theorem C5_preflight_returns_ok
    (service : Service) (request : Request) (o m : string) :
  has_value (headers request !! "Origin") o →
  has_value (headers request !! "Access-Control-Request-Method") m →
  fst (_preflight_view service request) = Some "ok"
  ∧ errors request `prefix_of` errors (snd (_preflight_view service request)).
Proof.
  intros Ho Hm.
  split; [|apply preflight_view_keeps_errors].
  by rewrite (preflight_view_complete service request o m Ho Hm).
Qed.

Lemma C5_witness :
  has_value (headers Ex.greedy !! "Origin") "notmyidea.org"
  ∧ has_value (headers Ex.greedy !! "Access-Control-Request-Method") "DELETE"
  ∧ fst (_preflight_view Squirel.service Ex.greedy) = Some "ok"
  ∧ errors (snd (_preflight_view Squirel.service Ex.greedy)) ≠ [].
Proof.
  assert (Ho : has_value (headers Ex.greedy !! "Origin") "notmyidea.org")
    by (split; [reflexivity | discriminate]).
  assert (Hm : has_value
                 (headers Ex.greedy !! "Access-Control-Request-Method")
                 "DELETE")
    by (split; [reflexivity | discriminate]).
  split; [exact Ho|]. split; [exact Hm|].
  split.
  - exact (proj1 (C5_preflight_returns_ok Squirel.service Ex.greedy
                    "notmyidea.org" "DELETE" Ho Hm)).
  - rewrite preflight_greedy. discriminate.
Defined.

(* ===================================================================== *)
(** ** The validator *)
(* ===================================================================== *)

(** What the validator does with an Origin header that has a value. *)
Lemma cors_validator_with_origin
    (service : Service) (request : Request) (origin : string) :
  has_value (headers request !! "Origin") origin →
  _cors_validator service request =
  if existsb (λ o, Fnmatch.fnmatchcase origin o)
       (cors_origins_for service (_get_method request))
  then set_response_header "Access-Control-Allow-Origin" origin request
  else errors_add "header" "Origin" (origin ++ " not allowed") request.
Proof.
  intros [Ho Hne]. unfold _cors_validator. rewrite Ho.
  destruct origin as [|c origin]; [done|]. simpl.
  by destruct (existsb _ _).
Qed.

(** What the validator does with an Origin header that is absent or
    empty: nothing. *)
Lemma cors_validator_without_origin (service : Service) (request : Request) :
  absent_or_empty (headers request !! "Origin") →
  _cors_validator service request = request.
Proof.
  intros [H|H]; unfold _cors_validator; by rewrite H.
Qed.




Example validator_correct_origin :
  response_headers (response
    (_cors_validator Squirel.service Ex.correct_origin))
    !! "Access-Control-Allow-Origin" = Some "notmyidea.org"
  ∧ errors (_cors_validator Squirel.service Ex.correct_origin) = [].
Proof. vm_compute. done. Qed.

(** C8.  For every request without an Origin header, the validator records
    no error and leaves the response headers (and everything else in the
    request) as they were. *)
Theorem C8_validator_no_origin (service : Service) (request : Request) :
  headers request !! "Origin" = None →
  _cors_validator service request = request
  ∧ errors (_cors_validator service request) = errors request
  ∧ response_headers (response (_cors_validator service request)) =
      response_headers (response request).
Proof.
  intros H.
  rewrite (cors_validator_without_origin service request (or_introl H)).
  done.
Qed.

Lemma C8_witness :
  headers Ex.bare !! "Origin" = None
  ∧ _cors_validator Squirel.service Ex.bare = Ex.bare.
Proof.
  split; [reflexivity|].
  exact (proj1 (C8_validator_no_origin Squirel.service Ex.bare eq_refl)).
Defined.

(* ===================================================================== *)
(** ** C9: the preflight view does not look at the origins *)
(* ===================================================================== *)

Lemma preflight_view_with_origins (origins : list string)
    (origins_for : string -> list string) (service : Service)
    (request : Request) :
  _preflight_view (with_origins origins origins_for service) request =
  _preflight_view service request.
Proof. reflexivity. Qed.

Lemma OriginNotAllowed_not_added (loc x : string) (m : string)
    (hs : list string) (service : Service) :
  (OriginNotAllowed loc x)
    ∉ method_errors service loc m ++ map (HeaderNotAllowed loc) hs.
Proof.
  intros H. apply elem_of_app in H as [H|H].
  - unfold method_errors in H. case_bool_decide; [by apply elem_of_nil in H|].
    apply list_elem_of_singleton in H. inversion H.
  - apply list_elem_of_fmap in H as (h & E & _). inversion E.
Qed.

(** Both mandatory headers are there, and the one entry the view records
    is neither "Method not allowed" nor about a requested header, and
    Access-Control-Allow-Headers is not set: the Origin header is empty. *)
Lemma C9_counterexample :
  headers Ex.empty_origin_get !! "Origin" = Some EmptyString
  ∧ headers Ex.empty_origin_get !! "Access-Control-Request-Method"
    = Some "GET"
  ∧ errors (snd (_preflight_view Squirel.service Ex.empty_origin_get))
    = [MissingHeader "header" "Origin"]
  ∧ MissingHeader "header" "Origin" ≠ MethodNotAllowed "header"
  ∧ (∀ h, MissingHeader "header" "Origin" ≠ HeaderNotAllowed "header" h)
  ∧ response_headers
      (response (snd (_preflight_view Squirel.service Ex.empty_origin_get)))
      !! "Access-Control-Allow-Headers" = None.
Proof.
  repeat split; try reflexivity; discriminate.
Qed.

(** C9 (amended).  For every preflight request in which both Origin and
    Access-Control-Request-Method are there and not empty, the preflight
    view of cors.py does not look at the origin patterns of the service nor
    at the value of Origin: every entry it adds is "Method not allowed" or
    [Header "h" not allowed], none is ["<origin> not allowed"], it sets
    Access-Control-Allow-Headers and Access-Control-Allow-Methods, and it
    does the same for any other origin patterns and for any other Origin
    value that is not empty. *)
Theorem C9_preflight_ignores_origin
    (service : Service) (request : Request) (o m : string) :
  has_value (headers request !! "Origin") o →
  has_value (headers request !! "Access-Control-Request-Method") m →
  let result := _preflight_view service request in
  (∃ added,
     errors (snd result) = errors request ++ added
     ∧ (∀ e, e ∈ added →
          e = MethodNotAllowed "header" ∨ ∃ h, e = HeaderNotAllowed "header" h)
     ∧ (∀ x, (OriginNotAllowed "header" x) ∉ added))
  ∧ response_headers (response (snd result))
      !! "Access-Control-Allow-Headers" =
      Some (Py.join ", " (cors_supported_headers service))
  ∧ response_headers (response (snd result))
      !! "Access-Control-Allow-Methods" =
      Some (Py.join "," (cors_supported_methods service))
  ∧ (∀ origins origins_for,
       _preflight_view (with_origins origins origins_for service) request =
       result)
  ∧ (∀ o', o' ≠ EmptyString →
       let result' :=
       _preflight_view service (with_header "Origin" o' request) in
       fst result' = fst result
       ∧ errors (snd result') = errors (snd result)
       ∧ response (snd result') = response (snd result)).
Proof.
  intros Ho Hm result. subst result.
  rewrite (preflight_view_complete service request o m Ho Hm). simpl.
  split; [|split; [|split; [|split]]].
  - eexists. split; [reflexivity|]. split.
    + intros e He. apply elem_of_app in He as [He|He].
      * unfold method_errors in He.
        case_bool_decide; [by apply elem_of_nil in He|].
        apply list_elem_of_singleton in He. by left.
      * apply list_elem_of_fmap in He as (h & E & _). right. by exists h.
    + intros x. apply OriginNotAllowed_not_added.
  - unfold preflight_headers.
    destruct (cors_max_age_for service m); by simplify_map_eq.
  - unfold preflight_headers.
    destruct (cors_max_age_for service m); by simplify_map_eq.
  - intros origins origins_for. rewrite preflight_view_with_origins.
    by rewrite (preflight_view_complete service request o m Ho Hm).
  - intros o' Hne.
    assert (Ho' : has_value
                    (headers (with_header "Origin" o' request) !! "Origin") o').
    { split; [|exact Hne]. simpl. by rewrite lookup_insert_eq. }
    assert (Hm' : has_value
                    (headers (with_header "Origin" o' request)
                       !! "Access-Control-Request-Method") m).
    { destruct Hm as [Hm Hmne]. split; [|exact Hmne]. simpl.
      by rewrite lookup_insert_ne. }
    rewrite (preflight_view_complete service _ o' m Ho' Hm'). simpl.
    unfold requested_headers_of. simpl.
    by rewrite lookup_insert_ne.
Qed.

Lemma C9_witness :
  has_value (headers Ex.incorrect_origin !! "Origin") "lolnet.org"
  ∧ has_value (headers Ex.incorrect_origin !! "Access-Control-Request-Method")
      "GET"
  ∧ response_headers
      (response (snd (_preflight_view Squirel.service Ex.incorrect_origin)))
      !! "Access-Control-Allow-Methods" = Some "GET,HEAD,PUT".
Proof.
  assert (Ho : has_value (headers Ex.incorrect_origin !! "Origin")
                 "lolnet.org")
    by (split; [reflexivity | discriminate]).
  assert (Hm : has_value
                 (headers Ex.incorrect_origin
                    !! "Access-Control-Request-Method") "GET")
    by (split; [reflexivity | discriminate]).
  split; [exact Ho|]. split; [exact Hm|].
  exact (proj1 (proj2 (proj2
    (C9_preflight_ignores_origin Squirel.service Ex.incorrect_origin
       "lolnet.org" "GET" Ho Hm)))).
Defined.

(** On the preflight of [test_incorrect_origin] the view records nothing;
    the entry about the origin comes from the validator. *)
Example incorrect_origin_view_and_validator :
  errors (snd (_preflight_view Squirel.service Ex.incorrect_origin)) = []
  ∧ errors (_cors_validator Squirel.service Ex.incorrect_origin) =
      [OriginNotAllowed "header" "lolnet.org"].
Proof. vm_compute. done. Qed.

(* ===================================================================== *)
(** ** The filter *)
(* ===================================================================== *)

Section Filter.

Variable service : Service.

(** The filter is the one step after the other. *)
Lemma cors_filter_steps (resp : Response) (request : Request) :
  response_headers (_cors_filter service resp request) =
  expose_step service (method request)
    (credentials_step service (_get_method request) (response_headers resp)).
Proof.
  unfold _cors_filter, expose_step, credentials_step.
  assert (Hb : negb (bool_decide
                       (is_Some (response_headers resp
                                   !! "Access-Control-Allow-Credentials")))
               = bool_decide
                   (response_headers resp
                      !! "Access-Control-Allow-Credentials" = None)).
  { destruct (response_headers resp !! "Access-Control-Allow-Credentials")
      as [v|].
    - rewrite bool_decide_eq_true_2 by by eexists.
      by rewrite bool_decide_eq_false_2.
    - rewrite bool_decide_eq_false_2 by (by intros [? ?]).
      by rewrite bool_decide_eq_true_2. }
  rewrite Hb.
  destruct (cors_support_credentials service (_get_method request) && _);
    destruct (Py.is_not _ _); simpl; try done;
    destruct (cors_supported_headers service); simpl; try done.
Qed.

Lemma credentials_step_lookup (method_ : string)
    (hs : gmap string string) :
  credentials_step service method_ hs !! "Access-Control-Allow-Credentials" =
  if cors_support_credentials service method_
     && bool_decide (hs !! "Access-Control-Allow-Credentials" = None)
  then Some "true"
  else hs !! "Access-Control-Allow-Credentials".
Proof.
  unfold credentials_step. destruct (_ && _); by simplify_map_eq.
Qed.

Lemma credentials_step_idem (method_ : string) (hs : gmap string string) :
  credentials_step service method_ (credentials_step service method_ hs) =
  credentials_step service method_ hs.
Proof.
  unfold credentials_step at 2 3.
  destruct (cors_support_credentials service method_) eqn:Hc; simpl.
  - case_bool_decide as Hn; simpl.
    + unfold credentials_step. rewrite Hc. simpl.
      rewrite bool_decide_eq_false_2; [done|].
      by rewrite lookup_insert_eq.
    + unfold credentials_step. rewrite Hc. simpl.
      by rewrite bool_decide_eq_false_2.
  - unfold credentials_step. by rewrite Hc.
Qed.

Lemma expose_step_lookup_credentials (verb : Py.str_obj)
    (hs : gmap string string) :
  expose_step service verb hs !! "Access-Control-Allow-Credentials" =
  hs !! "Access-Control-Allow-Credentials".
Proof. unfold expose_step. destruct (_ && _); by simplify_map_eq. Qed.

Lemma expose_step_idem (verb : Py.str_obj) (hs : gmap string string) :
  expose_step service verb (expose_step service verb hs) =
  expose_step service verb hs.
Proof.
  unfold expose_step. destruct (_ && _); [|done].
  by rewrite insert_insert_eq.
Qed.

(** The two steps write different keys, and the first only reads its
    own. *)
Lemma credentials_expose_commute (method_ : string) (verb : Py.str_obj)
    (hs : gmap string string) :
  credentials_step service method_ (expose_step service verb hs) =
  expose_step service verb (credentials_step service method_ hs).
Proof.
  unfold credentials_step.
  rewrite expose_step_lookup_credentials.
  destruct (_ && _); [|done].
  unfold expose_step. destruct (_ && _); [|done].
  by rewrite insert_insert_ne.
Qed.

(** What the filter leaves under Access-Control-Expose-Headers. *)
Lemma cors_filter_expose_headers (resp : Response) (request : Request) :
  response_headers (_cors_filter service resp request)
    !! "Access-Control-Expose-Headers" =
  if Py.is_not (method request) (Py.const "OPTIONS")
     && bool_decide (cors_supported_headers service ≠ [])
  then Some (Py.join ", " (cors_supported_headers service))
  else response_headers resp !! "Access-Control-Expose-Headers".
Proof.
  rewrite cors_filter_steps. unfold expose_step.
  destruct (_ && _); [by simplify_map_eq|].
  unfold credentials_step. destruct (_ && _); by simplify_map_eq.
Qed.

End Filter.

(** For a verb that is an interned string, [is not 'OPTIONS'] and
    [!= 'OPTIONS'] agree. *)
Lemma is_not_interned (verb : Py.str_obj) :
  Py.interned verb = true →
  Py.is_not verb (Py.const "OPTIONS") = negb (Py.eq verb (Py.const "OPTIONS")).
Proof. intros H. unfold Py.is_not, Py.is_, Py.eq. by rewrite H. Qed.

(** For a verb that is not, [is not 'OPTIONS'] holds whatever its
    characters. *)
Lemma is_not_fresh (verb : Py.str_obj) :
  Py.interned verb = false → Py.is_not verb (Py.const "OPTIONS") = true.
Proof. intros H. unfold Py.is_not, Py.is_. by rewrite H. Qed.

(** C6.  The claim: the filter sets Access-Control-Expose-Headers exactly
    when the verb of the request is not OPTIONS and the supported headers
    are not empty.  The code tests the verb with [is not], the identity of
    objects, where [_get_method] in the same file tests it with [==]: for
    the OPTIONS request above, with supported headers [X-My-Header], the
    filter sets Access-Control-Expose-Headers to "X-My-Header". *)
Theorem C6_filter_exposes_headers_on_options :
  Py.eq (method served_options) (Py.const "OPTIONS") = true
  ∧ _get_method served_options = "GET"
  ∧ response_headers
      (_cors_filter Squirel.service {| response_headers := ∅ |}
         served_options)
      !! "Access-Control-Expose-Headers" = Some "X-My-Header".
Proof. vm_compute. done. Qed.

(** When the verb is an interned string the filter does what the claim
    says. *)
Lemma cors_filter_expose_headers_interned
    (service : Service) (resp : Response) (request : Request) :
  Py.interned (method request) = true →
  response_headers (_cors_filter service resp request)
    !! "Access-Control-Expose-Headers" =
  if bool_decide (Py.chars (method request) ≠ "OPTIONS")
     && bool_decide (cors_supported_headers service ≠ [])
  then Some (Py.join ", " (cors_supported_headers service))
  else response_headers resp !! "Access-Control-Expose-Headers".
Proof.
  intros H. rewrite cors_filter_expose_headers, (is_not_interned _ H).
  unfold Py.eq. simpl.
  by rewrite (bool_decide_not (Py.chars (method request) = "OPTIONS")).
Qed.

(** C7.  The filter sets Access-Control-Allow-Credentials to "true" exactly
    when the policy supports credentials for the effective method and the
    response does not carry that header yet (otherwise what is under that
    header stays as it was); and applying the filter to its own result,
    for the same request, changes nothing. *)
Theorem C7_filter_credentials_idempotent
    (service : Service) (resp : Response) (request : Request) :
  let after := _cors_filter service resp request in
  response_headers after !! "Access-Control-Allow-Credentials" =
    (if cors_support_credentials service (_get_method request)
        && bool_decide
             (response_headers resp !! "Access-Control-Allow-Credentials"
              = None)
     then Some "true"
     else response_headers resp !! "Access-Control-Allow-Credentials")
  ∧ _cors_filter service after request = after.
Proof.
  intros after. subst after. split.
  - rewrite cors_filter_steps, expose_step_lookup_credentials.
    apply credentials_step_lookup.
  - assert (E : ∀ a b : Response,
               response_headers a = response_headers b → a = b).
    { intros [a] [b] H. simpl in H. by rewrite H. }
    apply E. rewrite !cors_filter_steps, credentials_expose_commute.
    by rewrite expose_step_idem, credentials_step_idem.
Qed.

(** C10.  The credentials branch of the filter does not look at the verb:
    for an OPTIONS request whose effective method (the value of
    Access-Control-Request-Method, or OPTIONS when that header is not
    there) has credentials enabled, and a response that does not carry
    Access-Control-Allow-Credentials yet, the filter sets it to "true", as
    it does for any other verb. *)
Theorem C10_filter_credentials_on_options
    (service : Service) (resp : Response) (request : Request) :
  Py.chars (method request) = "OPTIONS" →
  cors_support_credentials service (_get_method request) = true →
  response_headers resp !! "Access-Control-Allow-Credentials" = None →
  _get_method request =
    default "OPTIONS" (headers request !! "Access-Control-Request-Method")
  ∧ response_headers (_cors_filter service resp request)
      !! "Access-Control-Allow-Credentials" = Some "true".
Proof.
  intros Hverb Hcred Hnone. split.
  - unfold _get_method, Py.eq. by rewrite Hverb.
  - rewrite cors_filter_steps, expose_step_lookup_credentials.
    by rewrite credentials_step_lookup, Hcred, Hnone.
Qed.

Lemma C10_witness :
  Py.chars (method Ex.correct_origin) = "OPTIONS"
  ∧ cors_support_credentials squirel_with_max_age
      (_get_method Ex.correct_origin) = true
  ∧ (∅ : gmap string string) !! "Access-Control-Allow-Credentials" = None
  ∧ _get_method Ex.correct_origin = "GET"
  ∧ response_headers
      (_cors_filter squirel_with_max_age {| response_headers := ∅ |}
         Ex.correct_origin)
      !! "Access-Control-Allow-Credentials" = Some "true".
Proof.
  split; [reflexivity|]. split; [reflexivity|]. split; [reflexivity|].
  exact (C10_filter_credentials_on_options squirel_with_max_age
           {| response_headers := ∅ |} Ex.correct_origin
           eq_refl eq_refl eq_refl).
Defined.

(** The same for a verb other than OPTIONS. *)
Lemma cors_filter_credentials_any_verb
    (service : Service) (resp : Response) (request : Request) :
  cors_support_credentials service (_get_method request) = true →
  response_headers resp !! "Access-Control-Allow-Credentials" = None →
  response_headers (_cors_filter service resp request)
    !! "Access-Control-Allow-Credentials" = Some "true".
Proof.
  intros Hcred Hnone.
  rewrite cors_filter_steps, expose_step_lookup_credentials.
  by rewrite credentials_step_lookup, Hcred, Hnone.
Qed.

(* ===================================================================== *)
(** ** The options view of pyramidhook.py *)
(* ===================================================================== *)

Section OptionsView.

Variable normcase : string -> string.
Variable service : Service.

(** The older view stops on a missing mandatory header as the view of
    cors.py does; only the location of the entries is spelled "headers". *)
Lemma options_view_missing (request : Request) :
  Py.truthy (headers request !! "Access-Control-Request-Method")
    && Py.truthy (headers request !! "Origin") = false →
  _options_view normcase service request =
  (None,
   {| method := method request;
      headers := headers request;
      errors :=
        errors request
          ++ (if Py.truthy (headers request !! "Origin") then []
              else [MissingHeader "headers" "Origin"])
          ++ (if Py.truthy
                   (headers request !! "Access-Control-Request-Method")
              then []
              else [MissingHeader "headers" "Access-Control-Request-Method"]);
      response := response request |}).
Proof.
  intros H. unfold _options_view.
  destruct (Py.truthy (headers request !! "Origin")) eqn:Ho; simpl;
    destruct (Py.truthy (headers request !! "Access-Control-Request-Method"))
      eqn:Hm; simpl in *; try discriminate H; rewrite ?Hm; simpl;
    unfold errors_add, MissingHeader; simpl;
    rewrite <- ?app_assoc, ?app_nil_r; reflexivity.
Qed.

(** With both mandatory headers it checks the origin itself, against the
    origins of the whole service, then the method and the headers, and
    joins both lists with a comma alone. *)
Lemma options_view_complete (request : Request) (o m : string) :
  has_value (headers request !! "Origin") o →
  has_value (headers request !! "Access-Control-Request-Method") m →
  let allowed :=
    existsb (λ p, Fnmatch.fnmatchcase (normcase o) (normcase p))
      (cors_supported_origins service) in
  _options_view normcase service request =
  (Some "ok",
   {| method := method request;
      headers := headers request;
      errors :=
        errors request
          ++ (if allowed then [] else [OriginNotAllowed "headers" o])
          ++ method_errors service "headers" m
          ++ map (HeaderNotAllowed "headers")
               (offending (cors_supported_headers service)
                  (requested_headers_of request));
      response :=
        {| response_headers :=
             <["Access-Control-Allow-Headers" :=
                 Py.join "," (cors_supported_headers service)]>
               (<["Access-Control-Allow-Methods" :=
                    Py.join "," (cors_supported_methods service)]>
                  (if allowed
                   then <["Access-Control-Allow-Origin" := o]>
                          (response_headers (response request))
                   else response_headers (response request))) |} |}).
Proof.
  intros [Ho Hone] [Hm Hmne] allowed. unfold _options_view.
  destruct o as [|co o]; [done|]. destruct m as [|cm m]; [done|].
  rewrite Ho. simpl. rewrite Hm. simpl.
  rewrite !check_headers_spec. unfold method_errors.
  unfold requested_headers_of, set_response_header, set_header. simpl.
  fold allowed.
  destruct allowed; case_bool_decide; simpl;
    rewrite <- ?app_assoc; reflexivity.
Qed.

End OptionsView.

(** [test_incorrect_origin] and [test_correct_origin] against the options
    view, on a platform where [normcase] changes nothing. *)
Example options_view_incorrect_origin :
  errors (snd (_options_view id Squirel.service Ex.incorrect_origin)) =
    [OriginNotAllowed "headers" "lolnet.org"].
Proof. vm_compute. reflexivity. Qed.

Example options_view_correct_origin :
  fst (_options_view id Squirel.service Ex.correct_origin) = Some "ok"
  ∧ errors (snd (_options_view id Squirel.service Ex.correct_origin)) = []
  ∧ response_headers
      (response (snd (_options_view id Squirel.service Ex.correct_origin)))
    = <["Access-Control-Allow-Headers" := "X-My-Header"]>
        (<["Access-Control-Allow-Methods" := "GET,HEAD,PUT"]>
           (<["Access-Control-Allow-Origin" := "notmyidea.org"]> ∅)).
Proof. vm_compute. done. Qed.

(* ===================================================================== *)
(** ** More on the validator *)
(* ===================================================================== *)

Lemma get_method_not_options (request : Request) :
  Py.chars (method request) ≠ "OPTIONS" →
  _get_method request = Py.chars (method request).
Proof.
  intros H. unfold _get_method, Py.eq. simpl.
  by rewrite bool_decide_eq_false_2.
Qed.

(** X1.  For a request whose verb is not OPTIONS the validator does not
    read Access-Control-Request-Method: adding that header, or changing
    its value, changes nothing in what the validator records and sets. *)
Theorem X1_validator_ignores_request_method
    (service : Service) (request : Request) (v : string) :
  Py.chars (method request) ≠ "OPTIONS" →
  _cors_validator service
    (with_header "Access-Control-Request-Method" v request) =
  with_header "Access-Control-Request-Method" v
    (_cors_validator service request).
Proof.
  intros Hverb. unfold _cors_validator.
  rewrite !get_method_not_options by done. simpl.
  rewrite lookup_insert_ne by done.
  destruct (headers request !! "Origin") as [o|]; [|done].
  destruct (Py.truthy_str o); [|done].
  by destruct (existsb _ _).
Qed.

Lemma X1_witness :
  Py.chars (method get_from_notmyidea) ≠ "OPTIONS"
  ∧ _cors_validator Squirel.service
      (with_header "Access-Control-Request-Method" "DELETE"
         get_from_notmyidea) =
    with_header "Access-Control-Request-Method" "DELETE"
      (_cors_validator Squirel.service get_from_notmyidea).
Proof.
  assert (H : Py.chars (method get_from_notmyidea) ≠ "OPTIONS")
    by discriminate.
  split; [exact H|].
  exact (X1_validator_ignores_request_method Squirel.service
           get_from_notmyidea "DELETE" H).
Defined.

(** X2.  Whatever the request, the validator leaves the verb and the
    request headers alone, leaves every response header other than
    Access-Control-Allow-Origin as it was, and either keeps the errors as
    they were or appends one entry about the origin; when it appends that
    entry it does not touch the response. *)
Theorem X2_validator_frame (service : Service) (request : Request) :
  let after := _cors_validator service request in
  method after = method request
  ∧ headers after = headers request
  ∧ (∀ k, k ≠ "Access-Control-Allow-Origin" →
       response_headers (response after) !! k =
       response_headers (response request) !! k)
  ∧ ((errors after = errors request)
     ∨ (∃ o, errors after = errors request ++ [OriginNotAllowed "header" o]
             ∧ response after = response request)).
Proof.
  intros after. subst after. unfold _cors_validator.
  destruct (headers request !! "Origin") as [o|]; [|by auto].
  destruct (Py.truthy_str o); [|by auto].
  destruct (existsb _ _); simpl.
  - repeat split; auto. intros k Hk. by rewrite lookup_insert_ne.
  - repeat split; auto. right. by exists o.
Qed.

(** X3.  When none of the patterns configured for the effective method
    holds a wildcard character, the validator lets a (non-empty) origin in
    exactly when it is, character for character, one of the patterns. *)
Theorem X3_validator_plain_patterns
    (service : Service) (request : Request) (origin : string) :
  has_value (headers request !! "Origin") origin →
  Forall plain (cors_origins_for service (_get_method request)) →
  (origin ∈ cors_origins_for service (_get_method request) →
   _cors_validator service request =
   set_response_header "Access-Control-Allow-Origin" origin request)
  ∧ (origin ∉ cors_origins_for service (_get_method request) →
     _cors_validator service request =
     errors_add "header" "Origin" (origin ++ " not allowed") request).
Proof.
  intros Ho Hplain.
  rewrite (cors_validator_with_origin service request origin Ho).
  destruct (existsb _ _) eqn:E.
  - split; [done|]. intros Hn. destruct Hn.
    apply existsb_exists in E as (pat & Hin & Hm).
    apply list_elem_of_In in Hin.
    rewrite Forall_forall in Hplain.
    apply (fnmatchcase_plain origin pat) in Hm; [by subst|].
    by apply Hplain.
  - split; [|done]. intros Hin.
    assert (existsb (λ o, Fnmatch.fnmatchcase origin o)
              (cors_origins_for service (_get_method request)) = true)
      as E'; [|congruence].
    apply existsb_exists. exists origin. split; [by apply list_elem_of_In|].
    apply fnmatchcase_plain; [|done].
    rewrite Forall_forall in Hplain. by apply Hplain.
Qed.

Lemma X3_witness :
  has_value (headers get_from_notmyidea !! "Origin") "notmyidea.org"
  ∧ Forall plain
      (cors_origins_for Squirel.service (_get_method get_from_notmyidea))
  ∧ _cors_validator Squirel.service get_from_notmyidea =
    set_response_header "Access-Control-Allow-Origin" "notmyidea.org"
      get_from_notmyidea.
Proof.
  assert (Ho : has_value (headers get_from_notmyidea !! "Origin")
                 "notmyidea.org")
    by (split; [reflexivity | discriminate]).
  assert (Hp : Forall plain
                 (cors_origins_for Squirel.service
                    (_get_method get_from_notmyidea)))
    by (repeat constructor).
  split; [exact Ho|]. split; [exact Hp|].
  apply (proj1 (X3_validator_plain_patterns Squirel.service
                  get_from_notmyidea "notmyidea.org" Ho Hp)).
  repeat constructor.
Defined.

(** X4.  When "*" is one of the patterns configured for the effective
    method, every non-empty origin is let in, and the header set is the
    origin of the request, not the star. *)
Theorem X4_validator_star_pattern
    (service : Service) (request : Request) (origin : string) :
  has_value (headers request !! "Origin") origin →
  "*" ∈ cors_origins_for service (_get_method request) →
  errors (_cors_validator service request) = errors request
  ∧ response_headers (response (_cors_validator service request))
      !! "Access-Control-Allow-Origin" = Some origin.
Proof.
  intros Ho Hstar.
  rewrite (cors_validator_with_origin service request origin Ho).
  assert (existsb (λ o, Fnmatch.fnmatchcase origin o)
            (cors_origins_for service (_get_method request)) = true) as ->.
  { apply existsb_exists. exists "*". split; [by apply list_elem_of_In|].
    apply fnmatchcase_star. }
  simpl. split; [done|]. by rewrite lookup_insert_eq.
Qed.

Lemma X4_witness :
  has_value (headers Ex.incorrect_origin !! "Origin") "lolnet.org"
  ∧ "*" ∈ cors_origins_for open_service (_get_method Ex.incorrect_origin)
  ∧ response_headers
      (response (_cors_validator open_service Ex.incorrect_origin))
      !! "Access-Control-Allow-Origin" = Some "lolnet.org".
Proof.
  assert (Ho : has_value (headers Ex.incorrect_origin !! "Origin")
                 "lolnet.org")
    by (split; [reflexivity | discriminate]).
  assert (Hs : "*" ∈ cors_origins_for open_service
                       (_get_method Ex.incorrect_origin))
    by (repeat constructor).
  split; [exact Ho|]. split; [exact Hs|].
  exact (proj2 (X4_validator_star_pattern open_service Ex.incorrect_origin
                  "lolnet.org" Ho Hs)).
Defined.

(** X5.  When the only pattern configured for the effective method is a
    star followed by text without wildcard characters, the validator lets
    a (non-empty) origin in exactly when the origin ends in that text,
    whatever comes before it. *)
Theorem X5_validator_star_suffix
    (service : Service) (request : Request) (origin suffix : string) :
  has_value (headers request !! "Origin") origin →
  cors_origins_for service (_get_method request) = [String "*" suffix] →
  plain suffix →
  ((∃ before : string, origin = (before ++ suffix)%string) →
   _cors_validator service request =
   set_response_header "Access-Control-Allow-Origin" origin request)
  ∧ ((¬ ∃ before : string, origin = (before ++ suffix)%string) →
     _cors_validator service request =
     errors_add "header" "Origin" (origin ++ " not allowed") request).
Proof.
  intros Ho Hpat Hplain.
  rewrite (cors_validator_with_origin service request origin Ho), Hpat.
  simpl. rewrite orb_false_r.
  pose proof (fnmatchcase_star_suffix origin suffix Hplain) as Hiff.
  destruct (Fnmatch.fnmatchcase origin (String "*" suffix)).
  - split; [done|]. intros Hn. destruct Hn. by apply Hiff.
  - split; [|done]. intros Hex. apply Hiff in Hex. discriminate Hex.
Qed.

Lemma X5_witness :
  has_value (headers get_from_subdomain !! "Origin") "a.example.com"
  ∧ cors_origins_for subdomain_service (_get_method get_from_subdomain)
    = [String "*" ".example.com"]
  ∧ plain ".example.com"
  ∧ _cors_validator subdomain_service get_from_subdomain =
    set_response_header "Access-Control-Allow-Origin" "a.example.com"
      get_from_subdomain.
Proof.
  assert (Ho : has_value (headers get_from_subdomain !! "Origin")
                 "a.example.com")
    by (split; [reflexivity | discriminate]).
  assert (Hp : plain ".example.com") by reflexivity.
  split; [exact Ho|]. split; [reflexivity|]. split; [exact Hp|].
  apply (proj1 (X5_validator_star_suffix subdomain_service
                  get_from_subdomain "a.example.com" ".example.com"
                  Ho eq_refl Hp)).
  by exists "a".
Defined.

(* ===================================================================== *)
(** ** The names read from Access-Control-Request-Headers *)
(* ===================================================================== *)

Section Split.





(** Reading on through characters that are not whitespace only makes the
    run longer. *)
Lemma split_go_no_space (s : string) (cur : list ascii) :
  no_space s →
  Py.split_go cur s =
  match rev cur ++ list_ascii_of_string s with
  | [] => []
  | run => [string_of_list_ascii run]
  end.
Proof.
  unfold no_space. revert cur.
  induction s as [|c s IH]; intros cur Hs; simpl in *.
  - rewrite app_nil_r. destruct cur as [|x cur]; [done|].
    simpl. by destruct (rev cur ++ [x]) eqn:E; [destruct (rev cur)|].
  - apply andb_true_iff in Hs as [Hc Hs]. apply negb_true_iff in Hc.
    rewrite Hc, (IH (c :: cur) Hs). simpl. by rewrite <- app_assoc.
Qed.

Lemma split_go_word_then_space (w rest : string) (cur : list ascii) :
  no_space w →
  Py.split_go cur (w ++ String " " rest) =
  match rev cur ++ list_ascii_of_string w with
  | [] => Py.split_go [] rest
  | run => string_of_list_ascii run :: Py.split_go [] rest
  end.
Proof.
  unfold no_space. revert cur.
  induction w as [|c w IH]; intros cur Hw; simpl in *.
  - rewrite app_nil_r. destruct cur as [|x cur]; [done|].
    simpl. by destruct (rev cur ++ [x]) eqn:E; [destruct (rev cur)|].
  - apply andb_true_iff in Hw as [Hc Hw]. apply negb_true_iff in Hc.
    rewrite Hc, (IH (c :: cur) Hw). simpl. by rewrite <- app_assoc.
Qed.

Lemma split_token (w : string) : header_token w → Py.split w = [w].
Proof.
  intros [Hne Hw]. unfold Py.split. rewrite (split_go_no_space w [] Hw).
  change (rev [] ++ list_ascii_of_string w) with (list_ascii_of_string w).
  destruct (list_ascii_of_string w) eqn:E.
  - destruct w; [done | discriminate E].
  - by rewrite <- E, string_of_list_ascii_of_string.
Qed.

Lemma split_join (names : list string) :
  Forall header_token names → Py.split (Py.join " " names) = names.
Proof.
  induction 1 as [|w names Hw Hnames IH]; [done|].
  destruct names as [|w' names]; [by apply split_token|].
  change (Py.join " " (w :: w' :: names))
    with (w ++ String " " (Py.join " " (w' :: names)))%string.
  unfold Py.split in *. destruct Hw as [Hne Hw].
  rewrite (split_go_word_then_space _ _ [] Hw).
  change (rev [] ++ list_ascii_of_string w) with (list_ascii_of_string w).
  destruct (list_ascii_of_string w) eqn:E.
  - destruct w; [done | discriminate E].
  - by rewrite <- E, string_of_list_ascii_of_string, IH.
Qed.

End Split.


(** X9.  A value of Access-Control-Request-Headers without whitespace is
    read as one single name, commas and all: the view splits on whitespace
    and on nothing else.  With both mandatory headers in place and that
    name not among the supported headers, the view records one entry that
    names the whole value. *)
Theorem X9_no_whitespace_is_one_name
    (service : Service) (request : Request) (o m v : string) :
  has_value (headers request !! "Origin") o →
  has_value (headers request !! "Access-Control-Request-Method") m →
  headers request !! "Access-Control-Request-Headers" = Some v →
  header_token v →
  v ∉ cors_supported_headers service →
  requested_headers_of request = [v]
  ∧ errors (snd (_preflight_view service request)) =
      errors request
        ++ (if bool_decide (m ∈ cors_supported_methods service)
            then [] else [MethodNotAllowed "header"])
        ++ [HeaderNotAllowed "header" v].
Proof.
  intros Ho Hm Hv Htok Hnot.
  assert (Hreq : requested_headers_of request = [v]).
  { unfold requested_headers_of. rewrite Hv.
    destruct Htok as [Hne Hw]. destruct v as [|c v]; [done|]. simpl.
    by apply (split_token (String c v)). }
  split; [exact Hreq|].
  rewrite (preflight_view_complete service request o m Ho Hm). simpl.
  rewrite Hreq. unfold offending, method_errors.
  rewrite filter_cons, decide_True by done. by rewrite filter_nil.
Qed.

Lemma X9_witness :
  has_value (headers comma_separated !! "Origin") "notmyidea.org"
  ∧ has_value (headers comma_separated !! "Access-Control-Request-Method")
      "GET"
  ∧ headers comma_separated !! "Access-Control-Request-Headers"
    = Some "X-My-Header,X-Other"
  ∧ header_token "X-My-Header,X-Other"
  ∧ ("X-My-Header,X-Other" ∉ cors_supported_headers Squirel.service)
  ∧ errors (snd (_preflight_view Squirel.service comma_separated)) =
      [HeaderNotAllowed "header" "X-My-Header,X-Other"].
Proof.
  assert (Ho : has_value (headers comma_separated !! "Origin")
                 "notmyidea.org")
    by (split; [reflexivity | discriminate]).
  assert (Hm : has_value
                 (headers comma_separated
                    !! "Access-Control-Request-Method") "GET")
    by (split; [reflexivity | discriminate]).
  assert (Ht : header_token "X-My-Header,X-Other")
    by (split; [discriminate | reflexivity]).
  assert (Hn : "X-My-Header,X-Other" ∉ cors_supported_headers Squirel.service)
    by (apply (bool_decide_unpack _); vm_compute; exact I).
  split; [exact Ho|]. split; [exact Hm|]. split; [reflexivity|].
  split; [exact Ht|]. split; [exact Hn|].
  exact (proj2 (X9_no_whitespace_is_one_name Squirel.service comma_separated
                  "notmyidea.org" "GET" "X-My-Header,X-Other"
                  Ho Hm eq_refl Ht Hn)).
Defined.

(** X10.  Names that are tokens, sent with one space between them, are
    read back as they were sent, in order and with repetitions. *)
Theorem X10_space_separated_round_trip
    (request : Request) (names : list string) :
  Forall header_token names →
  headers request !! "Access-Control-Request-Headers"
    = Some (Py.join " " names) →
  requested_headers_of request = names.
Proof.
  intros Hnames Hv. unfold requested_headers_of. rewrite Hv.
  destruct (Py.join " " names) eqn:E; simpl.
  - destruct names as [|w names]; [done|].
    apply Forall_cons in Hnames as [[Hne _] _].
    destruct names; simpl in E; [by subst|].
    destruct w; [done | discriminate E].
  - rewrite <- E. by apply split_join.
Qed.

Lemma X10_witness :
  Forall header_token ["X-My-Header"; "x-my-header"]
  ∧ headers two_names !! "Access-Control-Request-Headers"
    = Some (Py.join " " ["X-My-Header"; "x-my-header"])
  ∧ requested_headers_of two_names = ["X-My-Header"; "x-my-header"].
Proof.
  assert (Hn : Forall header_token ["X-My-Header"; "x-my-header"])
    by (repeat constructor; discriminate).
  split; [exact Hn|]. split; [reflexivity|].
  exact (X10_space_separated_round_trip two_names
           ["X-My-Header"; "x-my-header"] Hn eq_refl).
Defined.

(* ===================================================================== *)
(** ** More on the preflight view *)
(* ===================================================================== *)

Lemma offending_nil_iff (supported requested : list string) :
  offending supported requested = [] ↔
  ∀ h, h ∈ requested → h ∈ supported.
Proof.
  unfold offending. induction requested as [|h hs IH].
  - split; [|done]. intros _ h Hh. by apply elem_of_nil in Hh.
  - rewrite filter_cons. destruct (decide (h ∉ supported)) as [Hn|Hin].
    + split; [done|]. intros H. destruct Hn. apply H. by left.
    + rewrite IH. split.
      * intros H x Hx. apply elem_of_cons in Hx as [->|Hx]; [|by apply H].
        by destruct (decide (h ∈ supported)).
      * intros H x Hx. apply H. by right.
Qed.

(** X7.  Whatever the request, the preflight view leaves the verb and the
    request headers alone and leaves every response header other than
    Access-Control-Allow-Headers, Access-Control-Allow-Methods and
    Access-Control-Max-Age as it was; when it returns without ['ok'] it
    leaves the whole response as it was. *)
Theorem X7_preflight_frame (service : Service) (request : Request) :
  let result := _preflight_view service request in
  method (snd result) = method request
  ∧ headers (snd result) = headers request
  ∧ (∀ k, k ≠ "Access-Control-Allow-Headers" →
          k ≠ "Access-Control-Allow-Methods" →
          k ≠ "Access-Control-Max-Age" →
       response_headers (response (snd result)) !! k =
       response_headers (response request) !! k)
  ∧ (fst result = None → response (snd result) = response request).
Proof.
  intros result. subst result.
  destruct (Py.truthy (headers request !! "Access-Control-Request-Method")
            && Py.truthy (headers request !! "Origin")) eqn:E.
  - apply andb_true_iff in E as [Hm Ho].
    apply truthy_true_iff in Hm as [m Hm], Ho as [o Ho].
    rewrite (preflight_view_complete service request o m Ho Hm). simpl.
    repeat split; try done.
    intros k H1 H2 H3. unfold preflight_headers.
    destruct (cors_max_age_for service m);
      by rewrite ?lookup_insert_ne by done.
  - by rewrite (preflight_view_missing service request E).
Qed.

(** X11.  With both mandatory headers in place, the preflight view records
    nothing exactly when the requested method is one of the supported
    methods and every requested header name is one of the supported
    headers. *)
Theorem X11_preflight_clean_iff
    (service : Service) (request : Request) (o m : string) :
  has_value (headers request !! "Origin") o →
  has_value (headers request !! "Access-Control-Request-Method") m →
  errors (snd (_preflight_view service request)) = errors request
  ↔ m ∈ cors_supported_methods service
    ∧ ∀ h, h ∈ requested_headers_of request →
           h ∈ cors_supported_headers service.
Proof.
  intros Ho Hm.
  rewrite (preflight_view_complete service request o m Ho Hm). simpl.
  rewrite <- offending_nil_iff. unfold method_errors. split.
  - intros H. rewrite <- (app_nil_r (errors request)) in H at 2.
    apply app_inv_head in H. apply app_eq_nil in H as [H1 H2].
    split.
    + case_bool_decide; [done | discriminate H1].
    + by apply fmap_nil_inv in H2.
  - intros [Hin ->]. rewrite bool_decide_eq_true_2 by done.
    simpl. by rewrite app_nil_r.
Qed.

Lemma X11_witness :
  has_value (headers two_names !! "Origin") "notmyidea.org"
  ∧ has_value (headers two_names !! "Access-Control-Request-Method") "GET"
  ∧ errors (snd (_preflight_view Squirel.service two_names))
    ≠ errors two_names.
Proof.
  assert (Ho : has_value (headers two_names !! "Origin") "notmyidea.org")
    by (split; [reflexivity | discriminate]).
  assert (Hm : has_value
                 (headers two_names !! "Access-Control-Request-Method") "GET")
    by (split; [reflexivity | discriminate]).
  split; [exact Ho|]. split; [exact Hm|].
  intros H.
  apply (X11_preflight_clean_iff Squirel.service two_names
           "notmyidea.org" "GET" Ho Hm) in H as [_ H].
  assert (Hin : "x-my-header" ∈ requested_headers_of two_names)
    by (apply (bool_decide_unpack _); vm_compute; exact I).
  apply H in Hin. revert Hin.
  apply (bool_decide_unpack _). vm_compute. exact I.
Defined.

(** X6.  The validator and the preflight view can run in either order:
    the response ends up the same, the value the view returns is the same,
    and the same entries are recorded, though possibly in another order. *)
Theorem X6_validator_and_view_commute (service : Service) (request : Request) :
  let view_then_validator :=
    _cors_validator service (snd (_preflight_view service request)) in
  let validator_then_view :=
    _preflight_view service (_cors_validator service request) in
  response view_then_validator = response (snd validator_then_view)
  ∧ errors view_then_validator ≡ₚ errors (snd validator_then_view)
  ∧ fst validator_then_view = fst (_preflight_view service request).
Proof.
  intros a b. subst a b.
  assert (Hget : ∀ r : Request,
            method r = method request → headers r = headers request →
            _get_method r = _get_method request).
  { intros r H1 H2. unfold _get_method. by rewrite H1, H2. }
  destruct (Py.truthy (headers request !! "Origin")) eqn:Eo.
  - apply truthy_true_iff in Eo as [o Ho].
    rewrite (cors_validator_with_origin service request o Ho).
    destruct (Py.truthy (headers request !! "Access-Control-Request-Method"))
      eqn:Em.
    + apply truthy_true_iff in Em as [m Hm].
      rewrite (preflight_view_complete service request o m Ho Hm). simpl.
      rewrite (cors_validator_with_origin service _ o) by exact Ho.
      rewrite Hget by done.
      destruct (existsb _ _).
      * rewrite (preflight_view_complete service _ o m) by done. simpl.
        split; [|split; [reflexivity | done]].
        unfold set_header, preflight_headers. simpl. f_equal.
        destruct (cors_max_age_for service m);
          by rewrite !(insert_insert_ne _ "Access-Control-Allow-Origin").
      * rewrite (preflight_view_complete service _ o m) by done. simpl.
        split; [done|]. split; [|done].
        change (requested_headers_of (errors_add _ _ _ request))
          with (requested_headers_of request).
        rewrite <- !app_assoc. apply Permutation_app_head.
        rewrite (app_assoc (method_errors _ _ _)).
        apply Permutation_app_comm.
    + assert (E : Py.truthy (headers request
                               !! "Access-Control-Request-Method")
                  && Py.truthy (headers request !! "Origin") = false)
        by (by rewrite Em).
      rewrite (preflight_view_missing service request E). simpl.
      rewrite (cors_validator_with_origin service _ o) by exact Ho.
      rewrite Hget by done.
      destruct (existsb _ _).
      * by rewrite (preflight_view_missing service
                      (set_response_header "Access-Control-Allow-Origin" o
                         request) E).
      * rewrite (preflight_view_missing service
                   (errors_add "header" "Origin" (o ++ " not allowed")
                      request) E). simpl.
        split; [done|]. split; [|done].
        rewrite <- !app_assoc. apply Permutation_app_head.
        repeat rewrite (app_assoc _ _ [_]).
        apply Permutation_app_comm.
  - assert (E : Py.truthy (headers request
                             !! "Access-Control-Request-Method")
                && Py.truthy (headers request !! "Origin") = false)
      by (rewrite Eo; apply andb_false_r).
    apply truthy_false_iff in Eo.
    rewrite (cors_validator_without_origin service request Eo).
    rewrite (preflight_view_missing service request E). simpl.
    by rewrite cors_validator_without_origin.
Qed.

(* ===================================================================== *)
(** ** More on the filter *)
(* ===================================================================== *)

Lemma insert_keeps_keys (m : gmap string string) (k k' v : string) :
  is_Some (m !! k) → is_Some (<[k' := v]> m !! k).
Proof.
  intros H. destruct (decide (k' = k)) as [->|Hne].
  - rewrite lookup_insert_eq. by eexists.
  - by rewrite lookup_insert_ne.
Qed.

(** X12.  The filter leaves every response header other than
    Access-Control-Allow-Credentials and Access-Control-Expose-Headers as
    it was, and it never takes a header away. *)
Theorem X12_filter_frame
    (service : Service) (resp : Response) (request : Request) :
  let after := _cors_filter service resp request in
  (∀ k, k ≠ "Access-Control-Allow-Credentials" →
        k ≠ "Access-Control-Expose-Headers" →
     response_headers after !! k = response_headers resp !! k)
  ∧ (∀ k, is_Some (response_headers resp !! k) →
          is_Some (response_headers after !! k)).
Proof.
  intros after. subst after. rewrite cors_filter_steps.
  unfold expose_step, credentials_step. split.
  - intros k H1 H2.
    destruct (Py.is_not _ _ && _), (cors_support_credentials _ _ && _);
      by rewrite ?lookup_insert_ne by done.
  - intros k Hk.
    destruct (Py.is_not _ _ && _), (cors_support_credentials _ _ && _);
      repeat apply insert_keeps_keys; done.
Qed.

(** X13.  For a verb other than OPTIONS and a service with supported
    headers, the filter writes Access-Control-Expose-Headers whatever the
    response carried there before, whereas a value the response already
    carries under Access-Control-Allow-Credentials is never replaced. *)
Theorem X13_filter_overwrites_expose_only
    (service : Service) (resp : Response) (request : Request) (v : string) :
  Py.chars (method request) ≠ "OPTIONS" →
  cors_supported_headers service ≠ [] →
  response_headers resp !! "Access-Control-Allow-Credentials" = Some v →
  response_headers (_cors_filter service resp request)
    !! "Access-Control-Expose-Headers" =
    Some (Py.join ", " (cors_supported_headers service))
  ∧ response_headers (_cors_filter service resp request)
      !! "Access-Control-Allow-Credentials" = Some v.
Proof.
  intros Hverb Hsup Hcred. split.
  - rewrite cors_filter_expose_headers.
    assert (Py.is_not (method request) (Py.const "OPTIONS") = true) as ->.
    { unfold Py.is_not, Py.is_. simpl.
      rewrite (bool_decide_eq_false_2 _ Hverb). by rewrite andb_false_r. }
    by rewrite bool_decide_eq_true_2.
  - rewrite cors_filter_steps, expose_step_lookup_credentials.
    rewrite credentials_step_lookup, Hcred.
    rewrite bool_decide_eq_false_2 by done. by rewrite andb_false_r.
Qed.

Lemma X13_witness :
  Py.chars (method get_from_notmyidea) ≠ "OPTIONS"
  ∧ cors_supported_headers squirel_with_max_age ≠ []
  ∧ response_headers stamped_response !! "Access-Control-Allow-Credentials"
    = Some "false"
  ∧ response_headers
      (_cors_filter squirel_with_max_age stamped_response get_from_notmyidea)
      !! "Access-Control-Expose-Headers" = Some "X-My-Header, X-Your-Header"
  ∧ response_headers
      (_cors_filter squirel_with_max_age stamped_response get_from_notmyidea)
      !! "Access-Control-Allow-Credentials" = Some "false".
Proof.
  assert (H1 : Py.chars (method get_from_notmyidea) ≠ "OPTIONS")
    by discriminate.
  assert (H2 : cors_supported_headers squirel_with_max_age ≠ [])
    by discriminate.
  split; [exact H1|]. split; [exact H2|]. split; [reflexivity|].
  exact (X13_filter_overwrites_expose_only squirel_with_max_age
           stamped_response get_from_notmyidea "false" H1 H2 eq_refl).
Defined.

(* ===================================================================== *)
(** ** More on the options view of pyramidhook.py *)
(* ===================================================================== *)

(** X14.  If Origin or Access-Control-Request-Method is absent or empty,
    the options view returns at once without ['ok'], leaves the response
    as it was, and appends one "this header is mandatory" entry, under the
    location "headers", for each of the two that is absent or empty,
    Origin first. *)
Theorem X14_options_view_missing_header
    (normcase : string → string) (service : Service) (request : Request) :
  absent_or_empty (headers request !! "Origin")
  ∨ absent_or_empty (headers request !! "Access-Control-Request-Method") →
  let result := _options_view normcase service request in
  fst result = None
  ∧ response (snd result) = response request
  ∧ errors (snd result) =
      errors request
        ++ (if Py.truthy (headers request !! "Origin") then []
            else [MissingHeader "headers" "Origin"])
        ++ (if Py.truthy (headers request !! "Access-Control-Request-Method")
            then []
            else [MissingHeader "headers" "Access-Control-Request-Method"]).
Proof.
  intros H result. subst result.
  rewrite options_view_missing; [done|].
  destruct H as [H|H]; apply truthy_false_iff in H; rewrite H;
    [apply andb_false_r | apply andb_false_l].
Qed.

Lemma X14_witness :
  (absent_or_empty (headers Ex.bare !! "Origin")
   ∨ absent_or_empty (headers Ex.bare !! "Access-Control-Request-Method"))
  ∧ fst (_options_view id Squirel.service Ex.bare) = None
  ∧ errors (snd (_options_view id Squirel.service Ex.bare)) =
      [MissingHeader "headers" "Origin";
       MissingHeader "headers" "Access-Control-Request-Method"].
Proof.
  assert (H : absent_or_empty (headers Ex.bare !! "Origin")
              ∨ absent_or_empty
                  (headers Ex.bare !! "Access-Control-Request-Method"))
    by (left; left; reflexivity).
  split; [exact H|].
  destruct (X14_options_view_missing_header id Squirel.service Ex.bare H)
    as (H1 & _ & H3).
  split; [exact H1 | exact H3].
Defined.

(** X15.  With both mandatory headers in place (not empty), the options
    view returns ['ok'] and checks the origin itself, against the origins
    of the whole service and after [normcase] on both sides: on a match it
    sets Access-Control-Allow-Origin to the origin as sent, otherwise it
    records ["<origin> not allowed"]; that entry, if any, comes before the
    entry about the method, which comes before the entries about the
    requested headers. *)
Theorem X15_options_view_checks_origin
    (normcase : string → string) (service : Service) (request : Request)
    (o m : string) :
  has_value (headers request !! "Origin") o →
  has_value (headers request !! "Access-Control-Request-Method") m →
  let allowed :=
    existsb (λ p, Fnmatch.fnmatchcase (normcase o) (normcase p))
      (cors_supported_origins service) in
  let result := _options_view normcase service request in
  fst result = Some "ok"
  ∧ errors (snd result) =
      errors request
        ++ (if allowed then [] else [OriginNotAllowed "headers" o])
        ++ (if bool_decide (m ∈ cors_supported_methods service)
            then [] else [MethodNotAllowed "headers"])
        ++ map (HeaderNotAllowed "headers")
             (filter (λ h, h ∉ cors_supported_headers service)
                (requested_headers_of request))
  ∧ response_headers (response (snd result))
      !! "Access-Control-Allow-Origin" =
      (if allowed then Some o
       else response_headers (response request)
              !! "Access-Control-Allow-Origin").
Proof.
  intros Ho Hm allowed result. subst result.
  rewrite (options_view_complete normcase service request o m Ho Hm).
  fold allowed. simpl. split; [done|]. split; [done|].
  rewrite !lookup_insert_ne by done.
  destruct allowed; [by rewrite lookup_insert_eq | done].
Qed.

Lemma X15_witness :
  has_value (headers Ex.incorrect_origin !! "Origin") "lolnet.org"
  ∧ has_value (headers Ex.incorrect_origin !! "Access-Control-Request-Method")
      "GET"
  ∧ errors (snd (_options_view id Squirel.service Ex.incorrect_origin)) =
      [OriginNotAllowed "headers" "lolnet.org"].
Proof.
  assert (Ho : has_value (headers Ex.incorrect_origin !! "Origin")
                 "lolnet.org")
    by (split; [reflexivity | discriminate]).
  assert (Hm : has_value
                 (headers Ex.incorrect_origin
                    !! "Access-Control-Request-Method") "GET")
    by (split; [reflexivity | discriminate]).
  split; [exact Ho|]. split; [exact Hm|].
  exact (proj1 (proj2 (X15_options_view_checks_origin id Squirel.service
                         Ex.incorrect_origin "lolnet.org" "GET" Ho Hm))).
Defined.

(** X16.  The options view never writes Access-Control-Max-Age, nor any
    response header other than Access-Control-Allow-Origin,
    Access-Control-Allow-Methods and Access-Control-Allow-Headers; and
    when it runs to its end it joins the supported headers, like the
    supported methods, with a comma alone. *)
Theorem X16_options_view_headers
    (normcase : string → string) (service : Service) (request : Request) :
  let result := _options_view normcase service request in
  (∀ k, k ≠ "Access-Control-Allow-Origin" →
        k ≠ "Access-Control-Allow-Methods" →
        k ≠ "Access-Control-Allow-Headers" →
     response_headers (response (snd result)) !! k =
     response_headers (response request) !! k)
  ∧ (fst result = Some "ok" →
     response_headers (response (snd result))
       !! "Access-Control-Allow-Headers" =
       Some (Py.join "," (cors_supported_headers service))
     ∧ response_headers (response (snd result))
         !! "Access-Control-Allow-Methods" =
         Some (Py.join "," (cors_supported_methods service))).
Proof.
  intros result. subst result.
  destruct (Py.truthy (headers request !! "Access-Control-Request-Method")
            && Py.truthy (headers request !! "Origin")) eqn:E.
  - apply andb_true_iff in E as [Hm Ho].
    apply truthy_true_iff in Hm as [m Hm], Ho as [o Ho].
    rewrite (options_view_complete normcase service request o m Ho Hm).
    simpl. split.
    + intros k H1 H2 H3. rewrite !lookup_insert_ne by done.
      destruct (existsb _ _); [by rewrite lookup_insert_ne | done].
    + intros _. split; [by rewrite lookup_insert_eq|].
      by rewrite lookup_insert_ne, lookup_insert_eq.
  - rewrite (options_view_missing normcase service request E). simpl.
    split; [done | discriminate].
Qed.

(** X17.  For an OPTIONS request with both mandatory headers in place, on
    a platform where [normcase] changes nothing and for a service whose
    origins for the requested method are the origins of the whole service,
    the options view of pyramidhook.py does what the validator followed by
    the preflight view of cors.py does: the same value is returned, the
    same entries are appended in the same order (with the location spelled
    "headers"), and the same response headers result, apart from
    Access-Control-Allow-Headers and Access-Control-Max-Age. *)
Theorem X17_options_view_as_validator_then_view
    (normcase : string → string) (service : Service) (request : Request)
    (o m : string) :
  (∀ s, normcase s = s) →
  Py.chars (method request) = "OPTIONS" →
  has_value (headers request !! "Origin") o →
  has_value (headers request !! "Access-Control-Request-Method") m →
  cors_origins_for service m = cors_supported_origins service →
  let old := _options_view normcase service request in
  let new := _preflight_view service (_cors_validator service request) in
  fst old = fst new
  ∧ (∃ added,
       errors (snd new) = errors request ++ added
       ∧ errors (snd old) = errors request ++ map relocate added)
  ∧ (∀ k, k ≠ "Access-Control-Allow-Headers" →
          k ≠ "Access-Control-Max-Age" →
       response_headers (response (snd old)) !! k =
       response_headers (response (snd new)) !! k).
Proof.
  intros Hnorm Hverb Ho Hm Horigins old new. subst old new.
  rewrite (options_view_complete normcase service request o m Ho Hm).
  rewrite (cors_validator_with_origin service request o Ho).
  assert (_get_method request = m) as ->.
  { unfold _get_method, Py.eq. rewrite Hverb. simpl.
    destruct Hm as [-> _]. done. }
  rewrite Horigins.
  assert (Hex : ∀ l,
            existsb (λ p, Fnmatch.fnmatchcase (normcase o) (normcase p)) l
            = existsb (λ p, Fnmatch.fnmatchcase o p) l).
  { intros l. rewrite (Hnorm o). induction l as [|p ps IH]; [done|].
    simpl. rewrite (Hnorm p). by f_equal. }
  rewrite Hex.
  destruct (existsb _ _).
  - rewrite (preflight_view_complete service _ o m) by done. simpl.
    split; [done|]. split.
    + eexists. split; [reflexivity|].
      rewrite !map_app, <- list_fmap_compose. f_equal.
      unfold method_errors. by case_bool_decide.
    + intros k H1 H2. unfold preflight_headers.
      destruct (cors_max_age_for service m);
        rewrite !lookup_insert; repeat case_decide; by simplify_eq.
  - rewrite (preflight_view_complete service _ o m) by done. simpl.
    split; [done|]. split.
    + eexists. rewrite <- app_assoc. split; [reflexivity|].
      rewrite !map_app, <- list_fmap_compose. simpl. do 2 f_equal.
      unfold method_errors. by case_bool_decide.
    + intros k H1 H2. unfold preflight_headers.
      destruct (cors_max_age_for service m);
        rewrite !lookup_insert; repeat case_decide; by simplify_eq.
Qed.

Lemma X17_witness :
  (∀ s : string, id s = s)
  ∧ Py.chars (method Ex.correct_origin) = "OPTIONS"
  ∧ has_value (headers Ex.correct_origin !! "Origin") "notmyidea.org"
  ∧ has_value (headers Ex.correct_origin !! "Access-Control-Request-Method")
      "GET"
  ∧ cors_origins_for subdomain_service "GET"
    = cors_supported_origins subdomain_service
  ∧ fst (_options_view id subdomain_service Ex.correct_origin) =
    fst (_preflight_view subdomain_service
           (_cors_validator subdomain_service Ex.correct_origin)).
Proof.
  assert (Ho : has_value (headers Ex.correct_origin !! "Origin")
                 "notmyidea.org")
    by (split; [reflexivity | discriminate]).
  assert (Hm : has_value
                 (headers Ex.correct_origin
                    !! "Access-Control-Request-Method") "GET")
    by (split; [reflexivity | discriminate]).
  split; [reflexivity|]. split; [reflexivity|]. split; [exact Ho|].
  split; [exact Hm|]. split; [reflexivity|].
  exact (proj1 (X17_options_view_as_validator_then_view id subdomain_service
                  Ex.correct_origin "notmyidea.org" "GET"
                  (λ s, eq_refl) eq_refl Ho Hm eq_refl)).
Defined.

(* ===================================================================== *)
(** ** The tween *)
(* ===================================================================== *)

Lemma cornice_tween_filters (handler : Pyramidhook.TweenRequest → Response)
    (request : Pyramidhook.TweenRequest)
    (filters : list Pyramidhook.filter_ref)
    (ob : option (string → option (Response → Response))) :
  tween_filters request filters ob →
  Pyramidhook.cornice_tween handler request =
  Pyramidhook.apply_filters ob filters (handler request).
Proof.
  intros (pattern & service & kwargs & Hroute & Hservice & Hargs & Hfilters).
  unfold Pyramidhook.cornice_tween.
  by rewrite Hroute, Hservice, Hargs; simpl; rewrite Hfilters.
Qed.

(** The filters of a list run before those of the list that follows, and
    an exception ends the run. *)
Lemma apply_filters_app
    (ob : option (string → option (Response → Response)))
    (fs gs : list Pyramidhook.filter_ref) (response : Response) :
  Pyramidhook.apply_filters ob (fs ++ gs) response =
  match Pyramidhook.apply_filters ob fs response with
  | Pyramidhook.Returned response' =>
      Pyramidhook.apply_filters ob gs response'
  | Pyramidhook.Raised e => Pyramidhook.Raised e
  end.
Proof.
  revert response. induction fs as [|f fs IH]; intros response; [done|].
  destruct f as [attribute|f]; simpl; [|by apply IH].
  destruct ob as [getattr|]; [|done].
  destruct (getattr attribute); [by apply IH | done].
Qed.

Lemma apply_filters_callables
    (ob : option (string → option (Response → Response)))
    (fs : list (Response → Response)) (response : Response) :
  Pyramidhook.apply_filters ob (map Pyramidhook.FilterCallable fs) response =
  Pyramidhook.Returned (fold_left (λ r f, f r) fs response).
Proof.
  revert response. induction fs as [|f fs IH]; intros response; [done|].
  simpl. apply IH.
Qed.

(** X18.  The tween hands back the response of the handler untouched when
    no route matched, when no service is registered under the pattern of
    the matched route, or when the request has no [cornice_args]. *)
Theorem X18_tween_pass_through
    (handler : Pyramidhook.TweenRequest → Response)
    (request : Pyramidhook.TweenRequest) :
  Pyramidhook.matched_route request = None
  ∨ (∃ pattern,
       Pyramidhook.matched_route request = Some pattern
       ∧ default ∅ (Pyramidhook.registry request !! "cornice_services")
           !! pattern = None)
  ∨ Pyramidhook.cornice_args request = None →
  Pyramidhook.cornice_tween handler request =
  Pyramidhook.Returned (handler request).
Proof.
  unfold Pyramidhook.cornice_tween.
  intros [H | [(pattern & H1 & H2) | H]].
  - by rewrite H.
  - by rewrite H1, H2.
  - rewrite H. destruct (Pyramidhook.matched_route request); [|done].
    by destruct (_ !! _).
Qed.

Lemma X18_witness :
  (Pyramidhook.matched_route unrouted_request = None
   ∨ (∃ pattern,
        Pyramidhook.matched_route unrouted_request = Some pattern
        ∧ default ∅
            (Pyramidhook.registry unrouted_request !! "cornice_services")
            !! pattern = None)
   ∨ Pyramidhook.cornice_args unrouted_request = None)
  ∧ Pyramidhook.cornice_tween empty_handler unrouted_request =
    Pyramidhook.Returned {| response_headers := ∅ |}.
Proof.
  assert (H : Pyramidhook.matched_route unrouted_request = None
              ∨ (∃ pattern,
                   Pyramidhook.matched_route unrouted_request = Some pattern
                   ∧ default ∅
                       (Pyramidhook.registry unrouted_request
                          !! "cornice_services") !! pattern = None)
              ∨ Pyramidhook.cornice_args unrouted_request = None)
    by (left; reflexivity).
  split; [exact H|].
  exact (X18_tween_pass_through empty_handler unrouted_request H).
Defined.

(** X19.  For a request that matched a route of a registered service and
    whose filters are all callables, the tween returns the response of the
    handler passed through the filters one after the other, in the order
    of the list. *)
Theorem X19_tween_applies_filters_in_order
    (handler : Pyramidhook.TweenRequest → Response)
    (request : Pyramidhook.TweenRequest)
    (fs : list (Response → Response))
    (ob : option (string → option (Response → Response))) :
  tween_filters request (map Pyramidhook.FilterCallable fs) ob →
  Pyramidhook.cornice_tween handler request =
  Pyramidhook.Returned (fold_left (λ r f, f r) fs (handler request)).
Proof.
  intros H. rewrite (cornice_tween_filters handler request _ ob H).
  apply apply_filters_callables.
Qed.

Lemma X19_witness :
  tween_filters
    (squirel_tween_request
       (map Pyramidhook.FilterCallable
          [set_header "X-A" "1"; set_header "X-A" "2"]) None)
    (map Pyramidhook.FilterCallable
       [set_header "X-A" "1"; set_header "X-A" "2"]) None
  ∧ Pyramidhook.cornice_tween empty_handler
      (squirel_tween_request
         (map Pyramidhook.FilterCallable
            [set_header "X-A" "1"; set_header "X-A" "2"]) None)
    = Pyramidhook.Returned
        (set_header "X-A" "2"
           (set_header "X-A" "1" {| response_headers := ∅ |})).
Proof.
  assert (H : tween_filters
                (squirel_tween_request
                   (map Pyramidhook.FilterCallable
                      [set_header "X-A" "1"; set_header "X-A" "2"]) None)
                (map Pyramidhook.FilterCallable
                   [set_header "X-A" "1"; set_header "X-A" "2"]) None).
  { exists "/squirel", Squirel.service,
      {["filters" := map Pyramidhook.FilterCallable
                       [set_header "X-A" "1"; set_header "X-A" "2"]]}.
    repeat split; reflexivity. }
  split; [exact H|].
  exact (X19_tween_applies_filters_in_order empty_handler _
           [set_header "X-A" "1"; set_header "X-A" "2"] None H).
Defined.

(** X20.  A filter given by name is looked up on [ob]: when [ob] has it,
    the tween goes on with what it returns; when [ob] lacks the attribute
    the tween raises AttributeError; and when there is no [ob] at all the
    tween calls the name itself and raises TypeError.  The callables
    listed before the name have run by then. *)
Theorem X20_tween_named_filter
    (handler : Pyramidhook.TweenRequest → Response)
    (request : Pyramidhook.TweenRequest)
    (fs : list (Response → Response)) (attribute : string)
    (rest : list Pyramidhook.filter_ref)
    (ob : option (string → option (Response → Response))) :
  tween_filters request
    (map Pyramidhook.FilterCallable fs
       ++ Pyramidhook.FilterName attribute :: rest) ob →
  Pyramidhook.cornice_tween handler request =
  match ob with
  | None => Pyramidhook.Raised Pyramidhook.TypeError
  | Some getattr =>
      match getattr attribute with
      | None => Pyramidhook.Raised (Pyramidhook.AttributeError attribute)
      | Some f =>
          Pyramidhook.apply_filters ob rest
            (f (fold_left (λ r g, g r) fs (handler request)))
      end
  end.
Proof.
  intros H. rewrite (cornice_tween_filters handler request _ ob H).
  rewrite apply_filters_app, apply_filters_callables. simpl.
  destruct ob as [getattr|]; [|done]. by destruct (getattr attribute).
Qed.

Lemma X20_witness :
  tween_filters
    (squirel_tween_request
       (map Pyramidhook.FilterCallable [set_header "X-A" "1"]
          ++ Pyramidhook.FilterName "stamp" :: []) (Some stamping_object))
    (map Pyramidhook.FilterCallable [set_header "X-A" "1"]
       ++ Pyramidhook.FilterName "stamp" :: []) (Some stamping_object)
  ∧ Pyramidhook.cornice_tween empty_handler
      (squirel_tween_request
         (map Pyramidhook.FilterCallable [set_header "X-A" "1"]
            ++ Pyramidhook.FilterName "stamp" :: []) (Some stamping_object))
    = Pyramidhook.Returned
        (set_header "X-Stamp" "1"
           (set_header "X-A" "1" {| response_headers := ∅ |})).
Proof.
  assert (H : tween_filters
                (squirel_tween_request
                   (map Pyramidhook.FilterCallable [set_header "X-A" "1"]
                      ++ Pyramidhook.FilterName "stamp" :: [])
                   (Some stamping_object))
                (map Pyramidhook.FilterCallable [set_header "X-A" "1"]
                   ++ Pyramidhook.FilterName "stamp" :: [])
                (Some stamping_object)).
  { exists "/squirel", Squirel.service,
      {["filters" := map Pyramidhook.FilterCallable [set_header "X-A" "1"]
                       ++ Pyramidhook.FilterName "stamp" :: []]}.
    repeat split; reflexivity. }
  split; [exact H|].
  exact (X20_tween_named_filter empty_handler _ [set_header "X-A" "1"]
           "stamp" [] (Some stamping_object) H).
Defined.

(* ===================================================================== *)
(** ** The fallback view and the accept predicate *)
(* ===================================================================== *)

Lemma merge_acceptable_keeps (extra acceptable : list string) (t : string) :
  t ∈ acceptable → t ∈ Pyramidhook.merge_acceptable acceptable extra.
Proof.
  unfold Pyramidhook.merge_acceptable. revert acceptable.
  induction extra as [|x extra IH]; intros acceptable Ht; [done|].
  simpl. apply IH. case_bool_decide; simpl; [done|].
  apply elem_of_app. by left.
Qed.

Lemma merge_acceptable_adds (extra acceptable : list string) (t : string) :
  t ∈ extra → t ∈ Pyramidhook.merge_acceptable acceptable extra.
Proof.
  unfold Pyramidhook.merge_acceptable. revert acceptable.
  induction extra as [|x extra IH]; intros acceptable Ht.
  - by apply elem_of_nil in Ht.
  - simpl. apply elem_of_cons in Ht as [->|Ht]; [|by apply IH].
    apply (merge_acceptable_keeps extra).
    case_bool_decide; simpl; [done|].
    apply elem_of_app. right. by left.
Qed.

(** The merge adds no type twice. *)
Lemma merge_acceptable_NoDup (extra acceptable : list string) :
  NoDup acceptable → NoDup (Pyramidhook.merge_acceptable acceptable extra).
Proof.
  unfold Pyramidhook.merge_acceptable. revert acceptable.
  induction extra as [|x extra IH]; intros acceptable Hnd; [done|].
  simpl. apply IH. case_bool_decide as Hin; simpl; [done|].
  apply NoDup_app. split; [done|]. split.
  - intros y Hy Hy'. apply list_elem_of_singleton in Hy'. by subst.
  - apply NoDup_singleton.
Qed.

Section Fallback.

Context {V A : Type}.
Variable json_dumps : list string → string.
Variable service : Pyramidhook.Service V A.
Variable request : Pyramidhook.Request.

(** The loop raises HTTPNotAcceptable or PredicateMismatch and nothing
    else. *)
Lemma fallback_loop_raises (defs : list (string * V * gmap string A))
    (acceptable : list string) :
  (∃ body,
     Pyramidhook.fallback_loop json_dumps service request defs acceptable
     = Pyramidhook.HTTPNotAcceptable "application/json" body)
  ∨ Pyramidhook.fallback_loop json_dumps service request defs acceptable
    = Pyramidhook.PredicateMismatch (Pyramidhook.name service).
Proof.
  revert acceptable.
  induction defs as [|[[m v] args] defs IH]; intros acceptable; simpl.
  - by right.
  - case_bool_decide; simpl; [|by apply IH].
    case_bool_decide; simpl; [|by apply IH].
    destruct (Py.truthy _); simpl; [by apply IH|].
    left. by eexists.
Qed.

(** What the list dumped into the body of a 406 holds. *)
Lemma fallback_loop_not_acceptable
    (defs : list (string * V * gmap string A)) (acceptable : list string)
    (content_type body : string) :
  Pyramidhook.fallback_loop json_dumps service request defs acceptable
  = Pyramidhook.HTTPNotAcceptable content_type body →
  ∃ offered,
    body = json_dumps offered
    ∧ Py.truthy (Pyramidhook.best_match request offered) = false
    ∧ (∀ t, t ∈ acceptable → t ∈ offered)
    ∧ (∀ t, t ∈ Pyramidhook.get_acceptable service
                  (Pyramidhook.method request) → t ∈ offered)
    ∧ (∀ extra, Pyramidhook.info request !! "acceptable" = Some extra →
         ∀ t, t ∈ extra → t ∈ offered)
    ∧ (∃ v args, (Pyramidhook.method request, v, args) ∈ defs
                 ∧ is_Some (args !! "accept")).
Proof.
  revert acceptable.
  induction defs as [|[[m v] args] defs IH]; intros acceptable; simpl.
  - discriminate.
  - assert (Hnext : ∀ acc,
              (∀ t, t ∈ acceptable → t ∈ acc) →
              Pyramidhook.fallback_loop json_dumps service request defs acc
              = Pyramidhook.HTTPNotAcceptable content_type body →
              ∃ offered,
                body = json_dumps offered
                ∧ Py.truthy (Pyramidhook.best_match request offered) = false
                ∧ (∀ t, t ∈ acceptable → t ∈ offered)
                ∧ (∀ t, t ∈ Pyramidhook.get_acceptable service
                              (Pyramidhook.method request) → t ∈ offered)
                ∧ (∀ extra,
                     Pyramidhook.info request !! "acceptable" = Some extra →
                     ∀ t, t ∈ extra → t ∈ offered)
                ∧ (∃ v' args', (Pyramidhook.method request, v', args')
                                 ∈ (m, v, args) :: defs
                               ∧ is_Some (args' !! "accept"))).
    { intros acc Hsub H. apply IH in H
        as (offered & H1 & H2 & H3 & H4 & H5 & (v' & args' & H6 & H7)).
      exists offered. repeat split; auto.
      exists v', args'. split; [by right | done]. }
    case_bool_decide as Hm; simpl; [|by apply Hnext].
    case_bool_decide as Haccept; simpl; [|by apply Hnext].
    subst m.
    set (offered :=
           match Pyramidhook.info request !! "acceptable" with
           | Some extra =>
               Pyramidhook.merge_acceptable
                 (acceptable
                    ++ Pyramidhook.get_acceptable service
                         (Pyramidhook.method request)) extra
           | None =>
               acceptable
                 ++ Pyramidhook.get_acceptable service
                      (Pyramidhook.method request)
           end).
    assert (Hbase : ∀ t, t ∈ (acceptable
                                ++ Pyramidhook.get_acceptable service
                                     (Pyramidhook.method request)) →
                         t ∈ offered).
    { intros t Ht. subst offered.
      destruct (Pyramidhook.info request !! "acceptable");
        [by apply merge_acceptable_keeps | done]. }
    destruct (Py.truthy (Pyramidhook.best_match request offered)) eqn:Hbest;
      simpl.
    + apply Hnext. intros t Ht. apply Hbase, elem_of_app. by left.
    + intros H. inversion H; subst. exists offered.
      split; [done|]. split; [done|]. split.
      { intros t Ht. apply Hbase, elem_of_app. by left. }
      split.
      { intros t Ht. apply Hbase, elem_of_app. by right. }
      split.
      { intros extra Hextra t Ht. subst offered. rewrite Hextra.
        by apply merge_acceptable_adds. }
      exists v, args. split; [by left | done].
Qed.

(** When nothing stands in the way the loop ends in PredicateMismatch. *)
Lemma fallback_loop_mismatch (defs : list (string * V * gmap string A))
    (acceptable : list string) :
  (∀ v args, (Pyramidhook.method request, v, args) ∈ defs →
             args !! "accept" = None)
  ∨ (∀ offered, Py.truthy (Pyramidhook.best_match request offered) = true) →
  Pyramidhook.fallback_loop json_dumps service request defs acceptable
  = Pyramidhook.PredicateMismatch (Pyramidhook.name service).
Proof.
  intros H. revert acceptable.
  induction defs as [|[[m v] args] defs IH]; intros acceptable; [done|].
  simpl.
  assert (IH' : ∀ acc,
            Pyramidhook.fallback_loop json_dumps service request defs acc
            = Pyramidhook.PredicateMismatch (Pyramidhook.name service)).
  { apply IH. destruct H as [H|H]; [left | by right].
    intros v' args' Hin. apply (H v'). by right. }
  case_bool_decide as Hm; simpl; [|by apply IH'].
  case_bool_decide as Haccept; simpl; [|by apply IH'].
  destruct H as [H|H].
  - subst m. rewrite (H v args) in Haccept by by left.
    by destruct Haccept.
  - rewrite H. simpl. apply IH'.
Qed.

End Fallback.

(** X21.  The fallback view raises HTTPMethodNotAllowed exactly when the
    verb of the request is not among the defined methods of the service,
    and the [allow] it then carries is the list of defined methods. *)
Theorem X21_fallback_method_not_allowed {V A : Type}
    (json_dumps : list string → string)
    (service : Pyramidhook.Service V A) (request : Pyramidhook.Request)
    (allow : list string) :
  Pyramidhook._fallback_view json_dumps service request
  = Pyramidhook.HTTPMethodNotAllowed allow
  ↔ (Pyramidhook.method request ∉ Pyramidhook.defined_methods service)
    ∧ allow = Pyramidhook.defined_methods service.
Proof.
  unfold Pyramidhook._fallback_view. case_bool_decide as Hin; simpl.
  - split; [|by intros [Hn _]].
    intros H.
    destruct (fallback_loop_raises json_dumps service request
                (Pyramidhook.definitions service) [])
      as [[body Hb]|Hp]; congruence.
  - split.
    + intros H. by inversion H.
    + by intros [_ ->].
Qed.

(** X22.  When the fallback view raises HTTPNotAcceptable, the verb is a
    defined method with a definition that has an accept argument, the
    content type is application/json, and the body is the dump of a list
    of types none of which the client takes ([best_match] finds nothing
    in it); that list holds every type the service accepts for the verb
    and every type found under [request.info['acceptable']]. *)
Theorem X22_fallback_not_acceptable {V A : Type}
    (json_dumps : list string → string)
    (service : Pyramidhook.Service V A) (request : Pyramidhook.Request)
    (content_type body : string) :
  Pyramidhook._fallback_view json_dumps service request
  = Pyramidhook.HTTPNotAcceptable content_type body →
  content_type = "application/json"
  ∧ Pyramidhook.method request ∈ Pyramidhook.defined_methods service
  ∧ (∃ v args, (Pyramidhook.method request, v, args)
                 ∈ Pyramidhook.definitions service
               ∧ is_Some (args !! "accept"))
  ∧ ∃ offered,
      body = json_dumps offered
      ∧ Py.truthy (Pyramidhook.best_match request offered) = false
      ∧ (∀ t, t ∈ Pyramidhook.get_acceptable service
                    (Pyramidhook.method request) → t ∈ offered)
      ∧ (∀ extra, Pyramidhook.info request !! "acceptable" = Some extra →
           ∀ t, t ∈ extra → t ∈ offered).
Proof.
  unfold Pyramidhook._fallback_view. case_bool_decide as Hin; simpl;
    [|discriminate].
  intros H. split.
  { destruct (fallback_loop_raises json_dumps service request
                (Pyramidhook.definitions service) [])
      as [[body' Hb]|Hp]; congruence. }
  split; [done|].
  apply fallback_loop_not_acceptable in H
    as (offered & H1 & H2 & _ & H4 & H5 & H6).
  split; [done|]. by exists offered.
Qed.

Lemma X22_witness :
  Pyramidhook._fallback_view dumps_stand_in squirel_views (json_client "GET")
  = Pyramidhook.HTTPNotAcceptable "application/json" "text/plain"
  ∧ Pyramidhook.method (json_client "GET")
      ∈ Pyramidhook.defined_methods squirel_views.
Proof.
  assert (H : Pyramidhook._fallback_view dumps_stand_in squirel_views
                (json_client "GET")
              = Pyramidhook.HTTPNotAcceptable "application/json" "text/plain")
    by reflexivity.
  split; [exact H|].
  exact (proj1 (proj2 (X22_fallback_not_acceptable dumps_stand_in
                         squirel_views (json_client "GET")
                         "application/json" "text/plain" H))).
Defined.

(** X23.  When the verb is a defined method and either no definition for
    that verb has an accept argument, or the client takes whatever it is
    offered, the fallback view raises PredicateMismatch with the name of
    the service. *)
Theorem X23_fallback_predicate_mismatch {V A : Type}
    (json_dumps : list string → string)
    (service : Pyramidhook.Service V A) (request : Pyramidhook.Request) :
  Pyramidhook.method request ∈ Pyramidhook.defined_methods service →
  (∀ v args, (Pyramidhook.method request, v, args)
               ∈ Pyramidhook.definitions service →
             args !! "accept" = None)
  ∨ (∀ offered, Py.truthy (Pyramidhook.best_match request offered) = true) →
  Pyramidhook._fallback_view json_dumps service request
  = Pyramidhook.PredicateMismatch (Pyramidhook.name service).
Proof.
  intros Hin H. unfold Pyramidhook._fallback_view.
  rewrite bool_decide_eq_true_2 by done. simpl.
  by apply fallback_loop_mismatch.
Qed.

Lemma X23_witness :
  Pyramidhook.method (json_client "POST")
    ∈ Pyramidhook.defined_methods squirel_views
  ∧ Pyramidhook._fallback_view dumps_stand_in squirel_views
      (json_client "POST")
    = Pyramidhook.PredicateMismatch "squirel".
Proof.
  assert (Hin : Pyramidhook.method (json_client "POST")
                  ∈ Pyramidhook.defined_methods squirel_views)
    by (apply (bool_decide_unpack _); vm_compute; exact I).
  split; [exact Hin|].
  apply (X23_fallback_predicate_mismatch dumps_stand_in squirel_views
           (json_client "POST") Hin).
  left. intros v args Hdef.
  apply elem_of_cons in Hdef as [Hdef|Hdef]; [discriminate Hdef|].
  apply list_elem_of_singleton in Hdef. by inversion Hdef.
Defined.

(** X24.  The types an accept callable yields, which
    [match_accept_header] stores under [request.info['acceptable']], all
    appear in the list dumped into the body when the fallback view then
    raises HTTPNotAcceptable for that request; and [match_accept_header]
    leaves the verb alone, so it does not change whether the fallback view
    raises HTTPMethodNotAllowed. *)
Theorem X24_accept_predicate_feeds_fallback {V A C : Type}
    (json_dumps : list string → string)
    (service : Pyramidhook.Service V A) (request : Pyramidhook.Request)
    (func : Pyramidhook.Request → list string) (context : C)
    (content_type body : string) :
  let request' :=
    snd (Pyramidhook.match_accept_header func context request) in
  Pyramidhook._fallback_view json_dumps service request'
  = Pyramidhook.HTTPNotAcceptable content_type body →
  (∃ offered, body = json_dumps offered
              ∧ ∀ t, t ∈ func request → t ∈ offered)
  ∧ Pyramidhook.method request' = Pyramidhook.method request.
Proof.
  intros request' H. split; [|done].
  unfold Pyramidhook._fallback_view in H.
  case_bool_decide; simpl in H; [|discriminate H].
  apply fallback_loop_not_acceptable in H
    as (offered & Hbody & _ & _ & _ & Hinfo & _).
  exists offered. split; [done|].
  apply (Hinfo (func request)). subst request'. simpl.
  by rewrite lookup_insert_eq.
Qed.

Lemma X24_witness :
  Pyramidhook._fallback_view dumps_stand_in squirel_views
    (snd (Pyramidhook.match_accept_header (λ _, ["text/html"]) tt
            (json_client "GET")))
  = Pyramidhook.HTTPNotAcceptable "application/json" "text/plain,text/html"
  ∧ ∃ offered, "text/plain,text/html" = dumps_stand_in offered
               ∧ ∀ t, t ∈ ["text/html"] → t ∈ offered.
Proof.
  assert (H : Pyramidhook._fallback_view dumps_stand_in squirel_views
                (snd (Pyramidhook.match_accept_header (λ _, ["text/html"]) tt
                        (json_client "GET")))
              = Pyramidhook.HTTPNotAcceptable "application/json"
                  "text/plain,text/html")
    by reflexivity.
  split; [exact H|].
  exact (proj1 (X24_accept_predicate_feeds_fallback dumps_stand_in
                  squirel_views (json_client "GET") (λ _, ["text/html"]) tt
                  "application/json" "text/plain,text/html" H)).
Defined.

(* ===================================================================== *)
(** ** wrap_request *)
(* ===================================================================== *)

(** X25.  After [wrap_request] the request has its three attributes; an
    attribute it had before, the errors recorded so far among them, is
    kept as it was, and running [wrap_request] again changes nothing. *)
Theorem X25_wrap_request_keeps_and_completes
    (request : Pyramidhook.EventRequest) :
  let wrapped := Pyramidhook.wrap_request request in
  Pyramidhook.validated wrapped
    = Some (default ∅ (Pyramidhook.validated request))
  ∧ Pyramidhook.errors wrapped
    = Some (default [] (Pyramidhook.errors request))
  ∧ Pyramidhook.event_info wrapped
    = Some (default ∅ (Pyramidhook.event_info request))
  ∧ Pyramidhook.wrap_request wrapped = wrapped.
Proof.
  destruct request as [[v|] [e|] [i|]]; repeat split; reflexivity.
Qed.
